(** * Column-resolution engine of the Excel analysis API

    A shallow embedding of [api/utils.py] (class [ExcelProcessor]) and of the
    parts of the Python runtime it calls, followed by the properties of the
    engine: header-row detection, substring column matching, numeric
    extraction and per-column aggregation. *)

From Stdlib Require Import ZArith Lia Bool List Ascii String.
From Stdlib Require Import Floats.SpecFloat.
From stdpp Require Import base list strings gmap.
Import ListNotations.

Local Open Scope string_scope.
Local Open Scope Z_scope.

(** ** The Python runtime the engine relies on *)

Module Py.

(** *** Strings

    A Python [str] is modelled by a Rocq [string] whose characters stand for
    the code points U+0000 .. U+00FF. *)

Definition code (c : ascii) : N := N_of_ascii c.

(** [str.lower()] on that range: A-Z, and the Latin-1 capitals U+00C0..U+00DE
    except the multiplication sign U+00D7, move up by 32. *)
Definition lower_char (c : ascii) : ascii :=
  let n := code c in
  if ((65 <=? n) && (n <=? 90))%N
     || ((192 <=? n) && (n <=? 222) && negb (n =? 215))%N
  then ascii_of_N (n + 32) else c.

Fixpoint lower (s : string) : string :=
  match s with
  | EmptyString => EmptyString
  | String c r => String (lower_char c) (lower r)
  end.

(** [str.isspace()] for one character: TAB..CR, FS..US, space, NEL, NBSP. *)
Definition is_space (c : ascii) : bool :=
  let n := code c in
  (((9 <=? n) && (n <=? 13)) || ((28 <=? n) && (n <=? 32))
   || (n =? 133) || (n =? 160))%N.

Fixpoint lstrip_by (sp : ascii -> bool) (s : string) : string :=
  match s with
  | EmptyString => EmptyString
  | String c r => if sp c then lstrip_by sp r else s
  end.

(** Drops the trailing characters satisfying [sp]. *)
Fixpoint rstrip_by (sp : ascii -> bool) (s : string) : string :=
  match s with
  | EmptyString => EmptyString
  | String c r =>
      match rstrip_by sp r with
      | EmptyString => if sp c then EmptyString else String c EmptyString
      | r' => String c r'
      end
  end.

(** [s.strip()] *)
Definition strip (s : string) : string := rstrip_by is_space (lstrip_by is_space s).

(** [s.replace(c, "")] for a one-character [c]: every occurrence is removed. *)
Fixpoint remove_char (c : ascii) (s : string) : string :=
  match s with
  | EmptyString => EmptyString
  | String d r => if Ascii.eqb c d then remove_char c r else String d (remove_char c r)
  end.

(** [needle in hay]: [needle] occurs in [hay] as a contiguous substring. *)
Fixpoint contains (needle hay : string) : bool :=
  String.prefix needle hay
  || match hay with
     | EmptyString => false
     | String _ r => contains needle r
     end.

(** Truth value of a [str]: only the empty string is false. *)
Definition str_truthy (s : string) : bool :=
  match s with EmptyString => false | _ => true end.

(** *** Floats

    A Python [float] is an IEEE 754 binary64 number: [spec_float] with a
    53-bit significand and the infinities at exponent 1024. *)

Definition float := spec_float.
Definition prec : Z := 53.
Definition emax : Z := 1024.

Definition fadd : float -> float -> float := SFadd prec emax.
Definition fdiv : float -> float -> float := SFdiv prec emax.

(** The binary64 number nearest to [n / d], ties to even, with sign [s];
    infinite when the quotient is out of range. *)
Definition nearest_ratio (s : bool) (n d : positive) : float :=
  let '(mz, ez, lz) := SFdiv_core_binary prec emax (Zpos n) 0 (Zpos d) 0 in
  binary_round_aux prec emax s mz ez lz.

(** The binary64 number nearest to the integer [z], ties to even. *)
Definition nearest_int (z : Z) : float := binary_normalize prec emax z 0 false.

Inductive exn := OverflowError.

Inductive result (A : Type) :=
| Ok (a : A)
| Raise (e : exn).
Arguments Ok {A} a.
Arguments Raise {A} e.

#[global] Instance result_bind : MBind result := fun A B k r =>
  match r with
  | Ok a => k a
  | Raise e => Raise e
  end.

(** [float(z)] for an [int]: correctly rounded, and [OverflowError] when the
    rounded value does not fit. *)
Definition float_of_int (z : Z) : result float :=
  match nearest_int z with
  | S754_infinity _ => Raise OverflowError
  | f => Ok f
  end.

Definition is_finite (x : float) : bool :=
  match x with
  | S754_zero _ | S754_finite _ _ _ => true
  | _ => false
  end.

(** The exact value of a finite float as a fraction [num / den]. *)
Definition exact (x : float) : Z * positive :=
  match x with
  | S754_finite s m (Zneg k) => (cond_Zopp s (Zpos m), (2 ^ k)%positive)
  | S754_finite s m e => (cond_Zopp s (Zpos m * 2 ^ e), 1%positive)
  | _ => (0, 1%positive)
  end.

(** The integer nearest to [num / den], a tie going to the even one. *)
Definition round_half_even (num : Z) (den : positive) : Z :=
  let q := num / Zpos den in
  let r := num mod Zpos den in
  match 2 * r ?= Zpos den with
  | Lt => q
  | Gt => q + 1
  | Eq => if Z.even q then q else q + 1
  end.

Definition sign_bit (x : float) : bool :=
  match x with
  | S754_zero s | S754_infinity s | S754_finite s _ _ => s
  | S754_nan => false
  end.

(** The float written [n / 100] in decimal, keeping the sign [s] of a zero. *)
Definition hundredths (s : bool) (n : Z) : float :=
  match n with
  | Z0 => S754_zero s
  | Zpos p => nearest_ratio false p 100
  | Zneg p => nearest_ratio true p 100
  end.

(** [round(x, 2)]: infinities and NaN are returned unchanged; a finite [x]
    is first rounded exactly to the nearest multiple of 1/100 (a tie going
    to the even multiple), and that decimal is then read back as the
    nearest float. *)
Definition round2 (x : float) : float :=
  if is_finite x
  then let '(num, den) := exact x in
       hundredths (sign_bit x) (round_half_even (100 * num) den)
  else x.

(** [sum(values)]: the items are added from left to right, starting from
    the integer 0.  (Interpreters from 3.12 on carry a compensation term
    along; it vanishes whenever the partial sums are exact.) *)
Definition sum (values : list float) : float :=
  fold_left fadd values (S754_zero false).

(** *** [float(s)] for a [str]

    The argument may carry surrounding blanks and underscores between
    digits; what remains must be a decimal literal (digits with an optional
    point and an optional exponent) or one of inf, infinity, nan, each with
    an optional sign.  [None] stands for [ValueError]. *)

Definition is_digit (c : ascii) : bool := ((48 <=? code c) && (code c <=? 57))%N.
Definition digit_val (c : ascii) : Z := Z.of_N (code c) - 48.

(** The blanks [float] ignores around the literal: TAB..CR and space, and
    NEL and NBSP, which it reads as spaces. *)
Definition is_float_space (c : ascii) : bool :=
  let n := code c in
  (((9 <=? n) && (n <=? 13)) || (n =? 32) || (n =? 133) || (n =? 160))%N.

Definition underscore : ascii := "_"%char.

(** An underscore must stand between two digits; underscores are dropped. *)
Fixpoint drop_underscores (prev : ascii) (s : string) : option string :=
  match s with
  | EmptyString => if Ascii.eqb prev underscore then None else Some EmptyString
  | String c r =>
      if Ascii.eqb c underscore
      then if is_digit prev then drop_underscores c r else None
      else if Ascii.eqb prev underscore && negb (is_digit c) then None
           else String c <$> drop_underscores c r
  end.

(** Reads the digits at the head of [s] onto the number [acc]; returns the
    number, how many digits were read, and the rest. *)
Fixpoint read_digits (s : string) (acc : Z) (n : Z) : Z * Z * string :=
  match s with
  | String c r => if is_digit c then read_digits r (10 * acc + digit_val c) (n + 1)
                  else (acc, n, s)
  | EmptyString => (acc, n, s)
  end.

Definition read_sign (s : string) : bool * string :=
  match s with
  | String "-"%char r => (true, r)
  | String "+"%char r => (false, r)
  | _ => (false, s)
  end.

(** The exponent part; a letter e without digits after it is not a literal. *)
Definition read_exponent (s : string) : option Z :=
  match s with
  | EmptyString => Some 0
  | String c r =>
      if Ascii.eqb c "e"%char || Ascii.eqb c "E"%char
      then let '(neg, r1) := read_sign r in
           match read_digits r1 0 0 with
           | (e, n, EmptyString) => if 0 <? n then Some (if neg then - e else e) else None
           | _ => None
           end
      else None
  end.

(** A decimal literal as sign, digits [d] and power of ten [e]:
    the value is [d * 10 ^ e]. *)
Definition read_decimal (s : string) : option (bool * Z * Z) :=
  let '(neg, r0) := read_sign s in
  let '(d1, n1, r1) := read_digits r0 0 0 in
  let '(d2, n2, r2) :=
    match r1 with
    | String "."%char r => read_digits r d1 0
    | _ => (d1, 0, r1)
    end in
  if 0 <? n1 + n2
  then e ← read_exponent r2; Some (neg, d2, e - n2)
  else None.

Definition ascii_lower_char (c : ascii) : ascii :=
  if ((65 <=? code c) && (code c <=? 90))%N then ascii_of_N (code c + 32) else c.

Fixpoint ascii_lower (s : string) : string :=
  match s with
  | EmptyString => EmptyString
  | String c r => String (ascii_lower_char c) (ascii_lower r)
  end.

Definition read_inf_nan (s : string) : option float :=
  let '(neg, r) := read_sign s in
  let w := ascii_lower r in
  if String.eqb w "inf" || String.eqb w "infinity" then Some (S754_infinity neg)
  else if String.eqb w "nan" then Some S754_nan
  else None.

(** The float nearest to [d * 10 ^ e]. *)
Definition float_of_decimal (neg : bool) (d e : Z) : float :=
  match d with
  | Zpos p =>
      match e with
      | Zneg k => nearest_ratio neg p (10 ^ k)
      | _ => nearest_ratio neg (p * Z.to_pos (10 ^ e)) 1
      end
  | _ => S754_zero neg
  end.

Definition float_of_str (s : string) : option float :=
  t ← drop_underscores "000"%char s;
  let lit := rstrip_by is_float_space (lstrip_by is_float_space t) in
  match read_decimal lit with
  | Some (neg, d, e) => Some (float_of_decimal neg d e)
  | None => read_inf_nan lit
  end.

(** *** [str(z)] for an [int] *)

Definition digit_char (d : Z) : ascii := ascii_of_N (Z.to_N d + 48).

Fixpoint digits_of_pos (fuel : nat) (z : Z) (acc : string) : string :=
  match fuel with
  | O => acc
  | S fuel' =>
      let acc' := String (digit_char (z mod 10)) acc in
      if z <? 10 then acc' else digits_of_pos fuel' (z / 10) acc'
  end.

Definition str_of_int (z : Z) : string :=
  match z with
  | Z0 => "0"
  | Zpos p => digits_of_pos (Pos.to_nat (Pos.size p)) z EmptyString
  | Zneg p => String "-"%char (digits_of_pos (Pos.to_nat (Pos.size p)) (Zpos p) EmptyString)
  end.

End Py.

(** ** Worksheets *)

(** What [cell.value] can be.  A float cell comes with the text [str]
    prints for it, read only when such a cell sits in the header row;
    any other object (a date, a time, a duration) is known by its truth
    value and its text. *)
Inductive value :=
| VNone
| VBool (b : bool)
| VInt (z : Z)
| VFloat (f : Py.float) (text : string)
| VStr (s : string)
| VOther (truthy : bool) (text : string).

(** A loaded sheet, as the engine observes it: [max_row], [max_column] and
    the value at each 1-based position, [None] where no cell is stored.
    The engine reads cells inside these bounds only, so reading never
    changes them. *)
Record worksheet := Worksheet {
  max_row : Z;
  max_column : Z;
  cell_value : Z -> Z -> value;
}.

(** The sheet whose stored cells are the given rows, first row first. *)
Definition sheet_of_rows (rows : list (list value)) : worksheet :=
  {| max_row := Z.max 1 (Z.of_nat (length rows));
     max_column := Z.max 1 (foldr (fun r m => Z.max (Z.of_nat (length r)) m) 0 rows);
     cell_value row column :=
       if (1 <=? row) && (1 <=? column)
       then default VNone
              (rows !! Z.to_nat (row - 1) ≫= fun r => r !! Z.to_nat (column - 1))
       else VNone |}.

(** [range(a, b)] *)
Definition range (a b : Z) : list Z := seqZ a (b - a).

(** [isinstance(v, str)] *)
Definition is_str (v : value) : bool :=
  match v with VStr _ => true | _ => false end.

(** [isinstance(v, (int, float))], a [bool] being an [int], together with
    [float(v)] for such a value. *)
Definition as_number (v : value) : option (Py.result Py.float) :=
  match v with
  | VBool b => Some (Py.float_of_int (if b then 1 else 0))
  | VInt z => Some (Py.float_of_int z)
  | VFloat f _ => Some (Py.Ok f)
  | _ => None
  end.

(** Truth value, as [or] tests it. *)
Definition truthy (v : value) : bool :=
  match v with
  | VNone => false
  | VBool b => b
  | VInt z => negb (z =? 0)
  | VFloat f _ => match f with S754_zero _ => false | _ => true end
  | VStr s => Py.str_truthy s
  | VOther t _ => t
  end.

(** [str(v)] *)
Definition str (v : value) : string :=
  match v with
  | VNone => "None"
  | VBool b => if b then "True" else "False"
  | VInt z => Py.str_of_int z
  | VFloat _ text => text
  | VStr s => s
  | VOther _ text => text
  end.

(** ** The engine: class [ExcelProcessor] *)

Module ExcelProcessor.

Import Py.

(** The generator expression of [find_best_header_row]:
    one [1] per column of [row] whose cell holds a [str], summed. *)
Definition text_cells (ws : worksheet) (row : Z) : Z :=
  foldr Z.add 0
    (map (fun _ => 1)
       (filter (fun col => is_str (cell_value ws row col) = true)
          (range 1 (max_column ws + 1)))).

(** One turn of the loop of [find_best_header_row]. *)
Definition header_step (ws : worksheet) (best : Z * Z) (row : Z) : Z * Z :=
  let '(best_row, best_count) := best in
  if best_count <? text_cells ws row then (row, text_cells ws row) else best.

Definition find_best_header_row (ws : worksheet) : Z :=
  fst (fold_left (header_step ws) (range 1 (Z.min 11 (max_row ws + 1))) (1, 0)).

(** A [dict] with [str] keys: the items in insertion order. *)
Definition dict := list (string * Z).

Definition dict_get (k : string) (d : dict) : option Z :=
  snd <$> find (fun kv => String.eqb k (fst kv)) d.

(** [d[k] = v]: a key already present keeps its place and takes the new
    value; a new key goes to the end. *)
Fixpoint dict_set (k : string) (v : Z) (d : dict) : dict :=
  match d with
  | [] => [(k, v)]
  | (k', v') :: r => if String.eqb k k' then (k, v) :: r else (k', v') :: dict_set k v r
  end.

(** [enumerate(headers)], counting from [idx]. *)
Fixpoint enumerate (idx : Z) (headers : list string) : list (Z * string) :=
  match headers with
  | [] => []
  | h :: r => (idx, h) :: enumerate (idx + 1) r
  end.

(** The inner loop of [find_column_matches]: the first header that is not
    empty and contains [target], both lowercased, is recorded, and the loop
    is left. *)
Fixpoint match_target (target : string) (hs : list (Z * string)) (matches : dict) : dict :=
  match hs with
  | [] => matches
  | (idx, header) :: r =>
      if str_truthy header && contains (lower target) (lower header)
      then dict_set target idx matches
      else match_target target r matches
  end.

Definition find_column_matches (headers target_columns : list string) : dict :=
  fold_left (fun matches target => match_target target (enumerate 0 headers) matches)
    target_columns [].

(** One turn of the loop of [extract_numeric_values] on the cell value. *)
Definition extract_step (val : value) (values : list float) : result (list float) :=
  match as_number val with
  | Some r => f ← r ; Ok (values ++ [f])%list
  | None =>
      match val with
      | VStr s =>
          match float_of_str (strip (remove_char "$" (remove_char "," s))) with
          | Some f => Ok (values ++ [f])%list
          | None => Ok values
          end
      | _ => Ok values
      end
  end.

Fixpoint extract_loop (ws : worksheet) (col_idx : Z) (rows : list Z)
    (values : list float) : result (list float) :=
  match rows with
  | [] => Ok values
  | row :: r =>
      values' ← extract_step (cell_value ws row (col_idx + 1)) values ;
      extract_loop ws col_idx r values'
  end.

Definition extract_numeric_values (ws : worksheet) (header_row col_idx : Z)
  : result (list float) :=
  extract_loop ws col_idx (range (header_row + 1) (max_row ws + 1)) [].

Record column_summary := ColumnSummary {
  column : string;
  sum : float;
  avg : float;
}.

(** [str(cell.value or "").strip()] for every column of the header row. *)
Definition headers_of (ws : worksheet) (header_row : Z) : list string :=
  map (fun c => let v := cell_value ws header_row c in
                strip (str (if truthy v then v else VStr "")))
      (range 1 (max_column ws + 1)).

(** The loop over [matches.items()]. *)
Fixpoint summarise (ws : worksheet) (header_row : Z) (items : list (string * Z))
    (summary : list column_summary) : result (list column_summary) :=
  match items with
  | [] => Ok summary
  | (name, idx) :: r =>
      values ← extract_numeric_values ws header_row idx ;
      match values with
      | [] => summarise ws header_row r summary
      | _ =>
          let total := Py.sum values in
          let average := fdiv total (nearest_int (Z.of_nat (length values))) in
          summarise ws header_row r
            (summary ++ [ColumnSummary name (round2 total) (round2 average)])%list
      end
  end.

(** [find_columns_in_excel], from the point where the sheet has been
    chosen. *)
Definition find_columns_in_excel (sheet : worksheet) (target_columns : list string)
  : result (list column_summary) :=
  let header_row := find_best_header_row sheet in
  let headers := headers_of sheet header_row in
  let matches := find_column_matches headers target_columns in
  summarise sheet header_row matches [].

End ExcelProcessor.

Import Py ExcelProcessor.

(** ** Vocabulary of the specification *)

(** The float a decimal literal denotes. *)
Definition flt (literal : string) : float :=
  default S754_nan (float_of_str literal).

(** [target] lexically matches [header]: the header is not empty and its
    lowercased form contains the lowercased target. *)
Definition hit (target header : string) : Prop :=
  header <> "" /\ exists pre post, lower header = pre ++ lower target ++ post.

(** The test of the matcher on one enumerated header. *)
Definition hits (target : string) (ih : Z * string) : bool :=
  str_truthy (snd ih) && contains (lower target) (lower (snd ih)).

(** Column offset [i] is the first header that [target] matches. *)
Definition first_hit (target : string) (headers : list string) (i : Z) : Prop :=
  0 <= i /\
  (exists h, headers !! Z.to_nat i = Some h /\ hit target h) /\
  forall j h, 0 <= j < i -> headers !! Z.to_nat j = Some h -> ~ hit target h.

Definition no_hit (target : string) (headers : list string) : Prop :=
  forall h, h ∈ headers -> ~ hit target h.

(** The header row the engine settles on, and its trimmed header strings. *)
Definition header_row_of (ws : worksheet) : Z := find_best_header_row ws.
Definition headers_in (ws : worksheet) : list string :=
  headers_of ws (header_row_of ws).

(** The scan window of the Header Locator. *)
Definition in_window (ws : worksheet) (row : Z) : Prop :=
  1 <= row <= Z.min 10 (max_row ws).

(** The text of a textual cell once commas, the dollar sign and the
    surrounding blanks are removed. *)
Definition cleaned (s : string) : string :=
  strip (remove_char "$" (remove_char "," s)).

(** What one cell of the data model contributes to the extracted sequence:
    a number its own value, a text its numeric reading when it has one,
    anything else nothing. *)
Definition contribution (v : value) : list float :=
  match v with
  | VInt z => [nearest_int z]
  | VFloat f _ => [f]
  | VStr s => match float_of_str (cleaned s) with Some f => [f] | None => [] end
  | _ => []
  end.

(** What the extractor draws from one cell, a truth value counting as the
    integer 1 or 0. *)
Definition drawn (v : value) : list float :=
  match v with
  | VBool b => [nearest_int (if b then 1 else 0)]
  | _ => contribution v
  end.

(** A cell of the data model: a number within the float range, a text, or
    empty. *)
Definition in_data_model (v : value) : bool :=
  match v with
  | VNone | VFloat _ _ | VStr _ => true
  | VInt z => is_finite (nearest_int z)
  | _ => false
  end.

(** A numeric cell converts to a float without overflow. *)
Definition converts (v : value) : bool :=
  match v with
  | VInt z => is_finite (nearest_int z)
  | _ => true
  end.

(** The cell is numeric-coercible: the extractor draws a value from it. *)
Definition coercible (v : value) : bool :=
  match as_number v with
  | Some _ => true
  | None => match v with
            | VStr s => bool_decide (is_Some (float_of_str (cleaned s)))
            | _ => false
            end
  end.

(** The data cells of column offset [col_idx] below [header_row]. *)
Definition data_cells (ws : worksheet) (header_row col_idx : Z) : list value :=
  map (fun row => cell_value ws row (col_idx + 1))
      (range (header_row + 1) (max_row ws + 1)).

(** Every cell inside the bounds of the sheet satisfies [p]. *)
Definition all_cells (p : value -> bool) (ws : worksheet) : bool :=
  forallb (fun row => forallb (fun col => p (cell_value ws row col))
                        (range 1 (max_column ws + 1)))
          (range 1 (max_row ws + 1)).

(** The keys of a dictionary, in iteration order. *)
Definition keys (d : dict) : list string := map fst d.

(** The target has an entry in the summary. *)
Definition appears (target : string) (summary : list column_summary) : Prop :=
  exists e, e ∈ summary /\ column e = target.

(** The Column Matches of a request, and those among them whose column
    holds at least one numeric value. *)
Definition matches_of (ws : worksheet) (targets : list string) : dict :=
  find_column_matches (headers_in ws) targets.

Definition has_values (ws : worksheet) (item : string * Z) : bool :=
  match extract_numeric_values ws (header_row_of ws) (snd item) with
  | Ok (_ :: _) => true
  | _ => false
  end.

(** The summary entry a Column Match gives rise to, if any: the rounded sum
    and the rounded quotient of the unrounded sum by the count. *)
Definition entry_of (ws : worksheet) (header_row : Z) (item : string * Z)
  : list column_summary :=
  match extract_numeric_values ws header_row (snd item) with
  | Ok (v :: vs) =>
      let values := v :: vs in
      [ColumnSummary (fst item) (round2 (Py.sum values))
         (round2 (fdiv (Py.sum values) (nearest_int (Z.of_nat (length values)))))]
  | _ => []
  end.

Definition matched_with_values (ws : worksheet) (targets : list string) : list (string * Z) :=
  List.filter (has_values ws) (matches_of ws targets).

(** ** Scenarios *)

Definition num (literal : string) : value := VFloat (flt literal) literal.

(** Scenario A: a header in row 1 and four data rows. *)
Definition scenario_A : worksheet := sheet_of_rows
  [ [VStr "Product"; VStr "Price"; VStr "Quantity"];
    [VStr "Item 1"; num "100.5"; VInt 10];
    [VStr "Item 2"; num "200.0"; VInt 5];
    [VStr "Item 3"; num "150.75"; VInt 8];
    [VStr "Item 4"; num "75.25"; VInt 15] ].

(** Scenario B: a title, an empty row, the headers in row 3, a section
    banner and the data. *)
Definition scenario_B : worksheet := sheet_of_rows
  [ [VStr "*** PRICE LIST 2024 ***"];
    [];
    [VStr "ID"; VStr "Description"; VStr " CURRENT USD"; VStr " CURRENT CAD"; VStr "LONG HEADER"];
    [VStr "ELECTRONICS SECTION"];
    [VStr "E001"; VStr "Laptop"; num "1200.0"; num "1440.0"; num "1250.0"];
    [VStr "E002"; VStr "Mouse"; num "25.5"; num "30.6"; num "27.0"];
    [VStr "E003"; VStr "Keyboard"; num "85.75"; num "102.9"; num "89.0"];
    [VStr "E004"; VStr "Monitor"; num "350.0"; num "420.0"; num "365.0"] ].

(** Two headers contain the word price; only the second column holds
    numbers. *)
Definition two_price_columns : worksheet := sheet_of_rows
  [ [VStr "Price note"; VStr "Price"];
    [VStr "n/a"; VInt 10];
    [VStr "n/a"; VInt 20] ].

(** Scenario E: a column with thousands separators, a currency sign, a
    label, a gap, an integer and a float. *)
Definition scenario_E : worksheet := sheet_of_rows
  [ [VStr "Item"; VStr "Amount"];
    [VStr "a"; VStr "1,200.00"];
    [VStr "b"; VStr " $35.50 "];
    [VStr "c"; VStr "n/a"];
    [VStr "d"];
    [VStr "e"; VInt 7];
    [VStr "f"; num "2.25"] ].

(** [r] is [x] rounded to two decimal places, half to even: for a finite
    [x = p / q] there is an integer [n] of hundredths, nearest to [100 x]
    and even when [100 x] lies half-way between two integers, and [r] is the
    float written [n / 100]; an infinity or a NaN is left as it is. *)
Definition rounded_half_even (x r : float) : Prop :=
  if is_finite x
  then exists n : Z,
         r = hundredths (sign_bit x) n /\
         2 * Z.abs (n * Zpos (snd (exact x)) - 100 * fst (exact x)) <= Zpos (snd (exact x)) /\
         (2 * Z.abs (n * Zpos (snd (exact x)) - 100 * fst (exact x)) = Zpos (snd (exact x)) ->
          Z.even n = true)
  else r = x.

(** Scenario A as the specification words it, with the average of the
    price column left open. *)
Definition scenario_A_outcome (price_avg : float) : Prop :=
  exists summary,
    find_columns_in_excel scenario_A ["price"; "quantity"] = Ok summary /\
    ColumnSummary "price" (flt "526.50") price_avg ∈ summary /\
    ColumnSummary "quantity" (flt "38") (flt "9.5") ∈ summary.

(** The cardinality chain of the data model, as the specification words
    it. *)
Definition cardinality_chain (ws : worksheet) (targets : list string)
    (summary : list column_summary) : Prop :=
  (length summary <= length (matches_of ws targets))%nat /\
  (length (matches_of ws targets) <= length targets)%nat /\
  (length targets <= length (matched_with_values ws targets))%nat.

(** A lexically matching target shows up in the summary as soon as the
    column of some matching header holds a coercible cell. *)
Definition any_match_appears (ws : worksheet) (targets : list string) : Prop :=
  forall t i h,
    t ∈ targets ->
    headers_in ws !! Z.to_nat i = Some h -> 0 <= i ->
    (exists pre post, lower h = pre ++ lower t ++ post) ->
    existsb coercible (data_cells ws (header_row_of ws) i) = true ->
    exists summary, find_columns_in_excel ws targets = Ok summary /\ appears t summary.

(** ** Request validation: [ExcelUploadSerializer] *)

Module Serializer.

(** The outcome of a [validate_] method: the value it returns, or the
    message of the [ValidationError] it raises. *)
Inductive validation (A : Type) :=
| Valid (a : A)
| ValidationError (message : string).
Arguments Valid {A} a.
Arguments ValidationError {A} message.

(** [s.endswith(suffix)] *)
Fixpoint endswith (s suffix : string) : bool :=
  String.eqb s suffix
  || match s with
     | EmptyString => false
     | String _ r => endswith r suffix
     end.

(** [validate_file], on the name of the uploaded file; the file itself is
    handed back unchanged. *)
Definition validate_file (name : string) : validation string :=
  if existsb (endswith (lower name)) [".xlsx"; ".xls"]
  then Valid name
  else ValidationError "File must be an Excel file (.xlsx or .xls)".

(** The loop of [validate_columns]: [false] when some item makes it raise. *)
Fixpoint columns_pass (value : list value) : bool :=
  match value with
  | [] => true
  | VStr column :: r => if str_truthy (strip column) then columns_pass r else false
  | _ :: r => false
  end.

(** [[col.strip() for col in value]] *)
Definition stripped_columns (value : list value) : list string :=
  omap (fun v => match v with VStr col => Some (strip col) | _ => None end) value.

Definition validate_columns (value : list value) : validation (list string) :=
  match value with
  | [] => ValidationError "At least one column name must be provided"
  | _ =>
      if columns_pass value then Valid (stripped_columns value)
      else ValidationError "All column names must be non-empty strings"
  end.

End Serializer.

(** ** Workbooks and the uploaded file *)

(** A loaded workbook: its worksheets by title, in order, and the active
    one (chart sheets are left out). *)
Record workbook := Workbook {
  worksheets : list (string * worksheet);
  active : worksheet;
}.

(** What ends a request without a summary: the workbook cannot be decoded,
    the sheet asked for is missing, or the engine raises. *)
Inductive failure :=
| LoadError
| KeyError (sheet_name : string)
| EngineError (e : exn).

(** [workbook[key]]: the first worksheet of that title. *)
Definition getitem (wb : workbook) (key : string) : option worksheet :=
  snd <$> find (fun s => String.eqb (fst s) key) (worksheets wb).

(** [workbook[sheet_name] if sheet_name else workbook.active] *)
Definition select_sheet (wb : workbook) (sheet_name : option string)
  : failure + worksheet :=
  match sheet_name with
  | Some name =>
      if str_truthy name
      then match getitem wb name with
           | Some sheet => inr sheet
           | None => inl (KeyError name)
           end
      else inr (active wb)
  | None => inr (active wb)
  end.

(** [find_columns_in_excel] from the loaded workbook on: the sheet is
    chosen, then analysed. *)
Definition find_columns_in_workbook (wb : workbook) (target_columns : list string)
    (sheet_name : option string) : failure + list column_summary :=
  match select_sheet wb sheet_name with
  | inl f => inl f
  | inr sheet =>
      match find_columns_in_excel sheet target_columns with
      | Ok summary => inr summary
      | Raise e => inl (EngineError e)
      end
  end.

(** [process_excel_file]: the chunks of the upload are written to a new
    temporary file, the file is analysed, and the file is removed whatever
    the analysis did.  The files on disk are a map from paths to contents.  [load_workbook] decodes the bytes of a file, [None]
    when they are no workbook; [mktemp] is the path
    [NamedTemporaryFile] picks. *)
Definition process_excel_file
    (load_workbook : string -> option workbook) (mktemp : gmap string string -> string)
    (fs : gmap string string) (chunks : list string) (columns : list string)
    (sheet_name : option string)
  : gmap string string * (failure + list column_summary) :=
  let path := mktemp fs in
  let fs1 := <[path := foldr String.append "" chunks]> fs in
  let outcome :=
    match fs1 !! path ≫= load_workbook with
    | Some wb => find_columns_in_workbook wb columns sheet_name
    | None => inl LoadError
    end in
  let fs2 := if bool_decide (is_Some (fs1 !! path)) then delete path fs1 else fs1 in
  (fs2, outcome).

(** ** Further vocabulary *)

(** Some header matches the target. *)
Definition matched (headers : list string) (target : string) : bool :=
  existsb (hits target) (enumerate 0 headers).

(** Every character of [s] satisfies [sp]. *)
Definition all_chars (sp : ascii -> bool) (s : string) : bool :=
  forallb sp (list_ascii_of_string s).

(** The cell holds an integer that [float] refuses. *)
Definition overflows (v : value) : Prop :=
  exists z, v = VInt z /\ float_of_int z = Raise OverflowError.



(** A workbook with two sheets, the second active. *)
Definition two_sheets : workbook :=
  {| worksheets := [("Prices", scenario_B); ("Sales", scenario_A)];
     active := scenario_A |}.

(** ** Substring test *)

Lemma append_cons c (a b : string) : String c a ++ b = String c (a ++ b).
Proof. reflexivity. Qed.

Lemma append_empty (b : string) : "" ++ b = b.
Proof. reflexivity. Qed.

Lemma prefix_spec (a b : string) :
  String.prefix a b = true <-> exists post, b = a ++ post.
Proof.
  revert b. induction a as [|c a IH]; intros b; simpl.
  - destruct b; simpl; (split; [intros _; eexists; reflexivity | reflexivity]).
  - destruct b as [|d b]; simpl.
    + split; [discriminate | intros [post H]; discriminate].
    + destruct (ascii_dec c d) as [->|Hne].
      * rewrite IH. split; intros [post H]; exists post;
          rewrite append_cons in *; congruence.
      * split; [discriminate | intros [post H]; rewrite append_cons in H; congruence].
Qed.

Lemma contains_spec (needle hay : string) :
  contains needle hay = true <-> exists pre post, hay = pre ++ needle ++ post.
Proof.
  induction hay as [|c hay IH].
  - cbn [contains]. rewrite orb_false_r, prefix_spec. split.
    + intros [post H]. exists "", post. exact H.
    + intros [[|d pre] [post H]]; [eauto | discriminate].
  - cbn [contains]. rewrite orb_true_iff, prefix_spec, IH. split.
    + intros [[post H] | (pre & post & H)].
      * exists "", post. exact H.
      * exists (String c pre), post. rewrite append_cons. congruence.
    + intros ([|d pre] & post & H).
      * left. eauto.
      * right. exists pre, post. rewrite append_cons in H. congruence.
Qed.

Lemma str_truthy_spec (s : string) : str_truthy s = true <-> s <> "".
Proof. destruct s; simpl; split; congruence. Qed.

(** The test of the inner loop decides [hit]. *)
Lemma hit_test (target header : string) :
  str_truthy header && contains (lower target) (lower header) = true <-> hit target header.
Proof.
  unfold hit. rewrite andb_true_iff, str_truthy_spec, contains_spec. reflexivity.
Qed.

(** ** Dictionaries *)

Lemma dict_get_set_eq k v d : dict_get k (dict_set k v d) = Some v.
Proof.
  unfold dict_get. induction d as [|[k' v'] d IH]; simpl.
  - rewrite String.eqb_refl. reflexivity.
  - destruct (String.eqb k k') eqn:E; simpl.
    + rewrite String.eqb_refl. reflexivity.
    + rewrite E. exact IH.
Qed.

Lemma dict_get_set_ne k k' v d : k <> k' -> dict_get k' (dict_set k v d) = dict_get k' d.
Proof.
  intros Hne. unfold dict_get. induction d as [|[k1 v1] d IH]; simpl.
  - destruct (String.eqb_spec k' k); [congruence | reflexivity].
  - destruct (String.eqb_spec k k1) as [->|Hk]; simpl.
    + destruct (String.eqb_spec k' k1); [congruence|].
      destruct (String.eqb_spec k' k1); [congruence | reflexivity].
    + destruct (String.eqb_spec k' k1); [reflexivity | exact IH].
Qed.

Lemma keys_dict_set k v d :
  keys (dict_set k v d) = if bool_decide (k ∈ keys d) then keys d else (keys d ++ [k])%list.
Proof.
  induction d as [|[k' v'] d IH]; simpl; [reflexivity|].
  destruct (String.eqb_spec k k') as [->|Hk]; simpl.
  - rewrite bool_decide_eq_true_2 by left. reflexivity.
  - rewrite IH. repeat case_bool_decide; try reflexivity.
    + exfalso. match goal with H : _ ∉ _ |- _ => apply H end. by right.
    + exfalso. match goal with H : _ ∈ _ :: _ |- _ => apply elem_of_cons in H as [?|?] end; done.
Qed.

Lemma length_dict_set k v d :
  length (dict_set k v d) = if bool_decide (k ∈ keys d) then length d else S (length d).
Proof.
  pose proof (f_equal length (keys_dict_set k v d)) as H.
  unfold keys in *. rewrite length_map in H. rewrite H.
  case_bool_decide; rewrite ?length_app, length_map; simpl; lia.
Qed.

Lemma NoDup_keys_dict_set k v d : NoDup (keys d) -> NoDup (keys (dict_set k v d)).
Proof.
  intros Hd. rewrite keys_dict_set. case_bool_decide; [done|].
  apply NoDup_app. split_and!; [done | | apply NoDup_singleton].
  intros x Hx Hx'. apply list_elem_of_singleton in Hx'. congruence.
Qed.

Lemma dict_get_Some k v d : dict_get k d = Some v -> (k, v) ∈ d.
Proof.
  unfold dict_get. induction d as [|[k' v'] d IH]; simpl; [discriminate|].
  destruct (String.eqb_spec k k') as [->|Hk]; simpl.
  - intros [= ->]. left.
  - intros H. right. auto.
Qed.

Lemma dict_get_None k d : dict_get k d = None <-> k ∉ keys d.
Proof.
  unfold dict_get, keys. induction d as [|[k' v'] d IH]; simpl.
  - split; [intros _; apply not_elem_of_nil | done].
  - destruct (String.eqb_spec k k') as [->|Hk]; simpl.
    + split; [discriminate | intros H; exfalso; apply H; left].
    + rewrite IH. rewrite not_elem_of_cons. tauto.
Qed.

Lemma dict_get_NoDup k v d : NoDup (keys d) -> (k, v) ∈ d -> dict_get k d = Some v.
Proof.
  unfold dict_get, keys. induction d as [|[k' v'] d IH]; simpl; intros Hd Hin.
  - by apply elem_of_nil in Hin.
  - apply NoDup_cons in Hd as [Hk' Hd]. apply elem_of_cons in Hin as [[= -> ->]|Hin].
    + rewrite String.eqb_refl. reflexivity.
    + destruct (String.eqb_spec k k') as [->|Hk]; simpl; [|auto].
      exfalso. apply Hk'. apply (list_elem_of_fmap_2 fst _ _ Hin).
Qed.

(** ** The Column Matcher *)

Lemma match_target_find target hs matches :
  match_target target hs matches =
  match find (hits target) hs with
  | Some (idx, _) => dict_set target idx matches
  | None => matches
  end.
Proof.
  induction hs as [|[idx header] hs IH]; simpl; [reflexivity|].
  unfold hits at 1. simpl. destruct (_ && _); [reflexivity | exact IH].
Qed.

Lemma lookup_cons_Z {A} (x : A) (l : list A) (n : Z) :
  0 < n -> (x :: l) !! Z.to_nat n = l !! Z.to_nat (n - 1).
Proof.
  intros Hn. replace (Z.to_nat n) with (S (Z.to_nat (n - 1))) by lia. reflexivity.
Qed.

Lemma find_enumerate_Some target headers k i h :
  find (hits target) (enumerate k headers) = Some (i, h) <->
  k <= i /\ headers !! Z.to_nat (i - k) = Some h /\ hit target h /\
  forall j h', k <= j < i -> headers !! Z.to_nat (j - k) = Some h' -> ~ hit target h'.
Proof.
  revert k. induction headers as [|h0 r IH]; intros k; simpl.
  - split; [discriminate | intros (_ & H & _); discriminate].
  - unfold hits at 1. simpl. destruct (_ && _) eqn:E.
    + apply hit_test in E. split.
      * intros [= <- <-]. rewrite Z.sub_diag. split_and!; [lia | done | done | lia].
      * intros (Hk & Hl & Hh & Hfirst).
        destruct (decide (i = k)) as [->|Hne].
        -- rewrite Z.sub_diag in Hl. simpl in Hl. congruence.
        -- exfalso. apply (Hfirst k h0); [lia | by rewrite Z.sub_diag | done].
    + assert (~ hit target h0) as Hno by (rewrite <- hit_test, E; discriminate).
      rewrite IH. split.
      * intros (Hk & Hl & Hh & Hfirst). split_and!; [lia | | done |].
        -- rewrite lookup_cons_Z by lia. by replace (i - k - 1) with (i - (k + 1)) by lia.
        -- intros j h' Hj Hl'. destruct (decide (j = k)) as [->|Hne].
           ++ rewrite Z.sub_diag in Hl'. simpl in Hl'. congruence.
           ++ apply (Hfirst j h'); [lia|].
              rewrite lookup_cons_Z in Hl' by lia.
              by replace (j - (k + 1)) with (j - k - 1) by lia.
      * intros (Hk & Hl & Hh & Hfirst).
        assert (i <> k) as Hne.
        { intros ->. rewrite Z.sub_diag in Hl. simpl in Hl. congruence. }
        rewrite lookup_cons_Z in Hl by lia. split_and!; [lia | | done |].
        -- by replace (i - (k + 1)) with (i - k - 1) by lia.
        -- intros j h' Hj Hl'. apply (Hfirst j h'); [lia|].
           rewrite lookup_cons_Z by lia.
           by replace (j - k - 1) with (j - (k + 1)) by lia.
Qed.

Lemma find_enumerate_None target headers k :
  find (hits target) (enumerate k headers) = None <-> no_hit target headers.
Proof.
  unfold no_hit. revert k. induction headers as [|h0 r IH]; intros k; simpl.
  - split; [intros _ h Hh; by apply elem_of_nil in Hh | done].
  - unfold hits at 1. simpl. destruct (_ && _) eqn:E.
    + apply hit_test in E. split; [discriminate|].
      intros H. exfalso. apply (H h0); [left | done].
    + assert (~ hit target h0) as Hno by (rewrite <- hit_test, E; discriminate).
      rewrite IH. split.
      * intros H h Hh. apply elem_of_cons in Hh as [->|Hh]; auto.
      * intros H h Hh. apply H. by right.
Qed.

(** The first hit of a target, when there is one, is unique. *)
Lemma first_hit_find target headers i :
  first_hit target headers i <->
  exists h, find (hits target) (enumerate 0 headers) = Some (i, h).
Proof.
  unfold first_hit. setoid_rewrite find_enumerate_Some.
  setoid_rewrite Z.sub_0_r. split.
  - intros (Hi & (h & Hl & Hh) & Hfirst). exists h. split_and!; done.
  - intros (h & Hi & Hl & Hh & Hfirst). split_and!; [done | by exists h | done].
Qed.

Lemma first_hit_unique target headers i j :
  first_hit target headers i -> first_hit target headers j -> i = j.
Proof.
  rewrite !first_hit_find. intros [h Hi] [h' Hj]. congruence.
Qed.

Lemma first_hit_no_hit target headers i :
  first_hit target headers i -> no_hit target headers -> False.
Proof.
  rewrite first_hit_find, <- (find_enumerate_None _ _ 0). intros [h Hi] Hn. congruence.
Qed.

Lemma first_hit_or_no_hit target headers :
  (exists i, first_hit target headers i) \/ no_hit target headers.
Proof.
  destruct (find (hits target) (enumerate 0 headers)) as [[i h]|] eqn:E.
  - left. exists i. apply first_hit_find. by exists h.
  - right. by apply (find_enumerate_None _ _ 0).
Qed.

(** Lookup in the mapping built from the whole target list, started from
    any mapping. *)
Lemma dict_get_matches target headers targets (start : dict) :
  dict_get target
    (fold_left (fun matches t => match_target t (enumerate 0 headers) matches)
       targets start) =
  if bool_decide (target ∈ targets)
  then match find (hits target) (enumerate 0 headers) with
       | Some (i, _) => Some i
       | None => dict_get target start
       end
  else dict_get target start.
Proof.
  revert start. induction targets as [|t ts IH]; intros start; simpl.
  - reflexivity.
  - rewrite IH, match_target_find. clear IH.
    destruct (decide (target = t)) as [->|Hne].
    + rewrite (bool_decide_eq_true_2 (t ∈ t :: ts)) by left.
      destruct (find (hits t) (enumerate 0 headers)) as [[i h]|] eqn:E.
      * rewrite dict_get_set_eq. by case_bool_decide.
      * by case_bool_decide.
    + assert (dict_get target
                match find (hits t) (enumerate 0 headers) with
                | Some (idx, _) => dict_set t idx start
                | None => start
                end = dict_get target start) as ->.
      { destruct (find (hits t) _) as [[i h]|]; [|done]. by apply dict_get_set_ne. }
      repeat case_bool_decide; try reflexivity.
      * exfalso. match goal with H : _ ∉ _ |- _ => apply H end. by right.
      * exfalso. match goal with H : _ ∈ _ :: _ |- _ => apply elem_of_cons in H as [?|?] end; done.
Qed.

Lemma NoDup_keys_matches headers targets (start : dict) :
  NoDup (keys start) ->
  NoDup (keys (fold_left (fun matches t => match_target t (enumerate 0 headers) matches)
                 targets start)).
Proof.
  revert start. induction targets as [|t ts IH]; intros start Hs; simpl; [done|].
  apply IH. rewrite match_target_find.
  destruct (find (hits t) _) as [[i h]|]; [by apply NoDup_keys_dict_set | done].
Qed.

Lemma length_matches headers targets (start : dict) :
  (length (fold_left (fun matches t => match_target t (enumerate 0 headers) matches)
             targets start) <= length start + length targets)%nat.
Proof.
  revert start. induction targets as [|t ts IH]; intros start; simpl; [lia|].
  etrans; [apply IH|]. rewrite match_target_find.
  destruct (find (hits t) _) as [[i h]|]; [|lia].
  rewrite length_dict_set. case_bool_decide; lia.
Qed.

Lemma NoDup_keys_find_column_matches headers targets :
  NoDup (keys (find_column_matches headers targets)).
Proof. apply NoDup_keys_matches. constructor. Qed.

Lemma dict_get_find_column_matches target headers targets i :
  dict_get target (find_column_matches headers targets) = Some i <->
  target ∈ targets /\ first_hit target headers i.
Proof.
  unfold find_column_matches. rewrite dict_get_matches, first_hit_find.
  case_bool_decide as Hin.
  - destruct (find (hits target) _) as [[i' h]|]; simpl.
    + split; [intros [= ->]; eauto | intros (_ & h' & [= -> _]); done].
    + split; [done | intros (_ & h' & ?); done].
  - simpl. split; [done | intros [? _]; done].
Qed.

Lemma item_find_column_matches target headers targets i :
  (target, i) ∈ find_column_matches headers targets <->
  target ∈ targets /\ first_hit target headers i.
Proof.
  rewrite <- dict_get_find_column_matches. split.
  - apply dict_get_NoDup, NoDup_keys_find_column_matches.
  - apply dict_get_Some.
Qed.

(** ** The Header Locator *)

Lemma range_elem (a b x : Z) : x ∈ range a b <-> a <= x < b.
Proof. unfold range. rewrite elem_of_seqZ. lia. Qed.

Lemma NoDup_range (a b : Z) : NoDup (range a b).
Proof. apply NoDup_seqZ. Qed.

(** Where a range splits, the left part holds exactly the smaller numbers. *)
Lemma range_split (a b x : Z) (before after : list Z) :
  range a b = (before ++ x :: after)%list ->
  a <= x < b /\ forall y, y ∈ before <-> a <= y < x.
Proof.
  unfold range. intros H.
  assert (seqZ a (b - a) !! length before = Some x) as Hx.
  { rewrite H. by apply list_lookup_middle. }
  apply lookup_seqZ in Hx as [-> Hlen]. split; [lia|]. intros y. split.
  - intros Hy. apply list_elem_of_lookup in Hy as [n Hn].
    pose proof (lookup_lt_Some _ _ _ Hn) as Hlt.
    assert (seqZ a (b - a) !! n = Some y) as Hy.
    { rewrite H. by apply lookup_app_l_Some. }
    apply lookup_seqZ in Hy as [-> _]. lia.
  - intros Hy. apply list_elem_of_lookup. exists (Z.to_nat (y - a)).
    assert (seqZ a (b - a) !! Z.to_nat (y - a) = Some y) as Hl.
    { apply lookup_seqZ. lia. }
    rewrite H in Hl. rewrite lookup_app_l in Hl by lia. done.
Qed.

Lemma sum_of_ones {A} (l : list A) :
  foldr Z.add 0 (map (fun _ => 1) l) = Z.of_nat (length l).
Proof. induction l as [|x l IH]; simpl; [reflexivity | rewrite IH; lia]. Qed.

Lemma text_cells_nonneg ws row : 0 <= text_cells ws row.
Proof. unfold text_cells. rewrite sum_of_ones. lia. Qed.

(** The loop over any list of rows, from any starting pair: the count kept
    is the greatest seen, and the row kept is the first one that reached
    it. *)
Lemma header_loop_spec ws (rows : list Z) (start_row start_count : Z) :
  let best := fold_left (header_step ws) rows (start_row, start_count) in
  start_count <= snd best /\
  (forall row, row ∈ rows -> text_cells ws row <= snd best) /\
  (best = (start_row, start_count) \/
   exists before after,
     rows = (before ++ fst best :: after)%list /\
     text_cells ws (fst best) = snd best /\
     start_count < snd best /\
     forall row, row ∈ before -> text_cells ws row < snd best).
Proof.
  revert start_row start_count.
  induction rows as [|r rows IH]; intros start_row start_count; simpl.
  - split_and!; [lia | intros row H; by apply elem_of_nil in H | by left].
  - destruct (start_count <? text_cells ws r) eqn:E.
    + apply Z.ltb_lt in E.
      destruct (IH r (text_cells ws r)) as (Hle & Hall & Hbest).
      split_and!; [lia | |].
      * intros row Hrow. apply elem_of_cons in Hrow as [->|Hrow]; auto.
      * right. destruct Hbest as [Heq | (before & after & Hrows & Hc & Hlt & Hbefore)].
        -- rewrite Heq. simpl. exists [], rows. split_and!; try done.
           intros row H. by apply elem_of_nil in H.
        -- exists (r :: before), after. split_and!; [simpl; by f_equal | done | lia |].
           intros row Hrow. apply elem_of_cons in Hrow as [->|Hrow]; [lia | auto].
    + apply Z.ltb_ge in E.
      destruct (IH start_row start_count) as (Hle & Hall & Hbest).
      split_and!; [lia | |].
      * intros row Hrow. apply elem_of_cons in Hrow as [->|Hrow]; [lia | auto].
      * destruct Hbest as [Heq | (before & after & Hrows & Hc & Hlt & Hbefore)]; [by left|].
        right. exists (r :: before), after. split_and!; [simpl; by f_equal | done | lia |].
        intros row Hrow. apply elem_of_cons in Hrow as [->|Hrow]; [lia | auto].
Qed.

Lemma window_range ws row :
  row ∈ range 1 (Z.min 11 (max_row ws + 1)) <-> in_window ws row.
Proof. unfold in_window. rewrite range_elem. lia. Qed.

Lemma header_loop_ext ws ws' (rows : list Z) (start : Z * Z) :
  (forall row, row ∈ rows -> text_cells ws' row = text_cells ws row) ->
  fold_left (header_step ws') rows start = fold_left (header_step ws) rows start.
Proof.
  revert start. induction rows as [|r rows IH]; intros start H; simpl; [reflexivity|].
  rewrite IH by (intros row Hrow; apply H; by right).
  f_equal. unfold header_step. destruct start as [br bc]. rewrite (H r) by left. reflexivity.
Qed.

Lemma find_best_header_row_empty ws :
  (forall row, in_window ws row -> text_cells ws row = 0) ->
  find_best_header_row ws = 1.
Proof.
  intros Hzero. unfold find_best_header_row.
  destruct (header_loop_spec ws (range 1 (Z.min 11 (max_row ws + 1))) 1 0)
    as (_ & _ & [-> | (before & after & Hrows & Hc & Hlt & _)]); [reflexivity|].
  apply range_split in Hrows as [Hin _].
  rewrite Hzero in Hc by (unfold in_window; lia). lia.
Qed.

Lemma find_best_header_row_best ws :
  (exists row, in_window ws row /\ 0 < text_cells ws row) ->
  let best := find_best_header_row ws in
  in_window ws best /\
  (forall row, in_window ws row -> text_cells ws row <= text_cells ws best) /\
  (forall row, in_window ws row -> row < best -> text_cells ws row < text_cells ws best).
Proof.
  intros (row0 & Hwin0 & Hpos) best. unfold best, find_best_header_row.
  destruct (header_loop_spec ws (range 1 (Z.min 11 (max_row ws + 1))) 1 0)
    as (_ & Hall & [Heq | (before & after & Hrows & Hc & Hlt & Hbefore)]).
  - exfalso. apply window_range, Hall in Hwin0. rewrite Heq in Hwin0. simpl in Hwin0. lia.
  - apply range_split in Hrows as [Hin Hsplit]. rewrite Hc. split_and!.
    + unfold in_window. lia.
    + intros row Hrow. by apply Hall, window_range.
    + intros row Hrow Hlower. apply Hbefore, Hsplit. unfold in_window in Hrow. lia.
Qed.

(** ** The Numeric Extractor *)

Lemma float_of_int_finite z :
  is_finite (nearest_int z) = true -> float_of_int z = Ok (nearest_int z).
Proof. unfold float_of_int. destruct (nearest_int z); simpl; intros H; done. Qed.

Lemma extract_step_converts v values :
  converts v = true -> extract_step v values = Ok (values ++ drawn v)%list.
Proof.
  destruct v as [|[]|z|f text|s|t text]; simpl; intros H;
    unfold extract_step; simpl; rewrite ?app_nil_r; try reflexivity.
  - rewrite (float_of_int_finite z H). reflexivity.
  - unfold cleaned. destruct (float_of_str _); [reflexivity | by rewrite app_nil_r].
Qed.

Lemma extract_loop_converts ws col_idx rows values :
  (forall row, row ∈ rows -> converts (cell_value ws row (col_idx + 1)) = true) ->
  extract_loop ws col_idx rows values =
  Ok (values ++ flat_map (fun row => drawn (cell_value ws row (col_idx + 1))) rows)%list.
Proof.
  revert values. induction rows as [|r rows IH]; intros values H; simpl.
  - by rewrite app_nil_r.
  - rewrite extract_step_converts by (apply H; left). simpl.
    rewrite IH by (intros row Hrow; apply H; by right). by rewrite <- app_assoc.
Qed.

Lemma extract_numeric_values_converts ws header_row col_idx :
  (forall row, header_row < row <= max_row ws ->
     converts (cell_value ws row (col_idx + 1)) = true) ->
  extract_numeric_values ws header_row col_idx =
  Ok (flat_map drawn (data_cells ws header_row col_idx)).
Proof.
  intros H. unfold extract_numeric_values, data_cells.
  rewrite extract_loop_converts; simpl.
  - f_equal. generalize (range (header_row + 1) (max_row ws + 1)).
    induction l as [|r l IH]; simpl; [reflexivity | by rewrite IH].
  - intros row Hrow. apply H. apply range_elem in Hrow. lia.
Qed.

Lemma in_data_model_drawn v :
  in_data_model v = true -> converts v = true /\ drawn v = contribution v.
Proof. destruct v; simpl; try discriminate; auto. Qed.

Lemma coercible_drawn v : coercible v = true <-> drawn v <> [].
Proof.
  destruct v as [|b|z|f text|s|t text]; unfold coercible; simpl;
    try (split; congruence).
  destruct (float_of_str (cleaned s)); simpl; split; congruence.
Qed.

Lemma flat_map_drawn_nonempty (cells : list value) :
  existsb coercible cells = true -> flat_map drawn cells <> [].
Proof.
  induction cells as [|v cells IH]; simpl; [discriminate|].
  rewrite orb_true_iff. intros [Hv | Hc].
  - apply coercible_drawn in Hv. destruct (drawn v); [done | discriminate].
  - intros Heq. apply app_eq_nil in Heq as [_ Heq]. by apply IH.
Qed.

Lemma all_cells_spec p ws row col :
  all_cells p ws = true ->
  1 <= row <= max_row ws -> 1 <= col <= max_column ws ->
  p (cell_value ws row col) = true.
Proof.
  unfold all_cells. rewrite forallb_forall. intros H Hrow Hcol.
  specialize (H row). rewrite forallb_forall in H.
  apply H; apply list_elem_of_In, range_elem; lia.
Qed.

(** ** The Aggregator *)

Lemma summarise_inv ws header_row items acc summary :
  summarise ws header_row items acc = Ok summary ->
  summary = (acc ++ flat_map (entry_of ws header_row) items)%list /\
  forall item, item ∈ items ->
    exists values, extract_numeric_values ws header_row (snd item) = Ok values.
Proof.
  revert acc. induction items as [|[name idx] items IH]; intros acc; simpl.
  - intros [= <-]. split; [by rewrite app_nil_r | intros item H; by apply elem_of_nil in H].
  - unfold entry_of at 1. simpl.
    destruct (extract_numeric_values ws header_row idx) as [[|v vs]|e] eqn:E; simpl;
      [| |discriminate].
    + intros H. apply IH in H as [-> Hall]. split; [reflexivity|].
      intros item Hitem. apply elem_of_cons in Hitem as [->|Hitem]; [eauto | auto].
    + intros H. apply IH in H as [-> Hall]. split; [by rewrite <- app_assoc|].
      intros item Hitem. apply elem_of_cons in Hitem as [->|Hitem]; [eauto | auto].
Qed.

Lemma summarise_ok ws header_row items acc :
  (forall item, item ∈ items ->
     exists values, extract_numeric_values ws header_row (snd item) = Ok values) ->
  summarise ws header_row items acc =
  Ok (acc ++ flat_map (entry_of ws header_row) items)%list.
Proof.
  revert acc. induction items as [|[name idx] items IH]; intros acc Hall; simpl.
  - by rewrite app_nil_r.
  - unfold entry_of at 1. simpl.
    destruct (Hall (name, idx)) as [values E]; [left|]. simpl in E. rewrite E. simpl.
    destruct values as [|v vs].
    + apply IH. intros item Hitem. apply Hall. by right.
    + rewrite IH by (intros item Hitem; apply Hall; by right). by rewrite <- app_assoc.
Qed.

Lemma entry_of_column ws header_row item e :
  e ∈ entry_of ws header_row item -> column e = fst item.
Proof.
  unfold entry_of. destruct (extract_numeric_values _ _ _) as [[|v vs]|err].
  - intros H. by apply elem_of_nil in H.
  - intros H. apply list_elem_of_singleton in H. by subst.
  - intros H. by apply elem_of_nil in H.
Qed.

Lemma entries_sublist ws header_row items :
  map column (flat_map (entry_of ws header_row) items) `sublist_of` keys items.
Proof.
  induction items as [|item items IH]; simpl; [constructor|].
  rewrite map_app. unfold entry_of at 1.
  destruct (extract_numeric_values _ _ _) as [[|v vs]|err]; simpl.
  - by apply sublist_cons.
  - by apply sublist_skip.
  - by apply sublist_cons.
Qed.

Lemma entries_length ws items :
  length (flat_map (entry_of ws (header_row_of ws)) items) =
  length (List.filter (has_values ws) items).
Proof.
  induction items as [|item items IH]; simpl; [reflexivity|].
  rewrite length_app, IH. unfold entry_of, has_values.
  destruct (extract_numeric_values _ _ _) as [[|v vs]|err]; reflexivity.
Qed.

Lemma elem_of_entries ws header_row items e :
  e ∈ flat_map (entry_of ws header_row) items <->
  exists item, item ∈ items /\ e ∈ entry_of ws header_row item.
Proof.
  rewrite !list_elem_of_In, in_flat_map. setoid_rewrite list_elem_of_In. reflexivity.
Qed.

(** What [find_columns_in_excel] returns, when it returns. *)
Lemma find_columns_in_excel_inv ws targets summary :
  find_columns_in_excel ws targets = Ok summary ->
  summary = flat_map (entry_of ws (header_row_of ws)) (matches_of ws targets).
Proof.
  unfold find_columns_in_excel. intros H. apply summarise_inv in H as [-> _]. reflexivity.
Qed.

(** ** Rounding, bounds and Scenario A *)

Lemma round_half_even_spec (num : Z) (den : positive) :
  let n := round_half_even num den in
  2 * Z.abs (n * Zpos den - num) <= Zpos den /\
  (2 * Z.abs (n * Zpos den - num) = Zpos den -> Z.even n = true).
Proof.
  unfold round_half_even.
  pose proof (Z.div_mod num (Zpos den) ltac:(lia)) as Hdm.
  pose proof (Z.mod_pos_bound num (Zpos den) ltac:(lia)) as Hr.
  set (q := num / Zpos den) in *. set (r := num mod Zpos den) in *.
  destruct (Z.compare_spec (2 * r) (Zpos den)) as [Heq|Hlt|Hgt].
  - destruct (Z.even q) eqn:Hq.
    + split; [lia | done].
    + split; [lia|]. intros _. rewrite Z.even_add, Hq. reflexivity.
  - split; lia.
  - split; lia.
Qed.

Lemma round2_half_even (x : float) : rounded_half_even x (round2 x).
Proof.
  unfold rounded_half_even, round2. destruct (is_finite x); [|reflexivity].
  destruct (exact x) as [p q] eqn:E. simpl.
  exists (round_half_even (100 * p) q). split; [reflexivity|].
  apply round_half_even_spec.
Qed.

Lemma NoDup_map_elem {A B} (f : A -> B) (l : list A) (x y : A) :
  NoDup (map f l) -> x ∈ l -> y ∈ l -> f x = f y -> x = y.
Proof.
  induction l as [|a l IH]; simpl; intros Hnd Hx Hy Hf.
  - by apply elem_of_nil in Hx.
  - apply NoDup_cons in Hnd as [Ha Hnd].
    apply elem_of_cons in Hx as [->|Hx]; apply elem_of_cons in Hy as [->|Hy]; auto.
    + exfalso. apply Ha. rewrite Hf. by apply (list_elem_of_fmap_2 f).
    + exfalso. apply Ha. rewrite <- Hf. by apply (list_elem_of_fmap_2 f).
Qed.

Lemma find_best_header_row_pos ws : 1 <= find_best_header_row ws.
Proof.
  unfold find_best_header_row.
  destruct (header_loop_spec ws (range 1 (Z.min 11 (max_row ws + 1))) 1 0)
    as (_ & _ & [-> | (before & after & Hrows & _)]); [simpl; lia|].
  apply range_split in Hrows as [Hin _]. lia.
Qed.

Lemma length_headers_of ws header_row :
  length (headers_of ws header_row) = Z.to_nat (max_column ws).
Proof.
  unfold headers_of, range. rewrite length_map, length_seqZ. lia.
Qed.

(** Positions of Column Matches lie inside the sheet. *)
Lemma matches_in_bounds ws targets item :
  item ∈ matches_of ws targets -> 1 <= snd item + 1 <= max_column ws.
Proof.
  destruct item as [t i]. intros Hin.
  apply item_find_column_matches in Hin as [_ (Hi & (h & Hl & _) & _)].
  apply lookup_lt_Some in Hl. unfold headers_in in Hl.
  rewrite length_headers_of in Hl. simpl. lia.
Qed.

Lemma extract_matched_converts ws targets item :
  all_cells converts ws = true ->
  item ∈ matches_of ws targets ->
  extract_numeric_values ws (header_row_of ws) (snd item) =
  Ok (flat_map drawn (data_cells ws (header_row_of ws) (snd item))).
Proof.
  intros Hall Hin. apply extract_numeric_values_converts. intros row Hrow.
  pose proof (find_best_header_row_pos ws). unfold header_row_of in Hrow.
  apply all_cells_spec; [done | lia | by apply (matches_in_bounds ws targets)].
Qed.

Lemma scenario_A_summary :
  find_columns_in_excel scenario_A ["price"; "quantity"] =
  Ok [ColumnSummary "price" (flt "526.5") (flt "131.62");
      ColumnSummary "quantity" (flt "38") (flt "9.5")].
Proof. vm_compute. reflexivity. Qed.

(** ** The runtime model on known values *)

Example round_ties_to_even :
  round2 (flt "0.125") = flt "0.12" /\ round2 (flt "0.375") = flt "0.38" /\
  round2 (flt "131.625") = flt "131.62" /\ round2 (flt "-0.125") = flt "-0.12".
Proof. repeat split; reflexivity. Qed.

(** 2.675 is stored slightly below the tie, so it goes down. *)
Example round_inexact_literal : round2 (flt "2.675") = flt "2.67".
Proof. reflexivity. Qed.

Example round_keeps_non_finite :
  round2 (S754_infinity false) = S754_infinity false /\ round2 S754_nan = S754_nan.
Proof. split; reflexivity. Qed.

Example float_of_str_accepts :
  float_of_str "1200.00" = Some (nearest_int 1200) /\
  float_of_str " 1_200.5e-1 " = float_of_str "120.05" /\
  float_of_str ".5" = float_of_str "0.5" /\
  float_of_str "-Infinity" = Some (S754_infinity true) /\
  float_of_str "NaN" = Some S754_nan /\
  float_of_str "1e400" = Some (S754_infinity false).
Proof. repeat split; reflexivity. Qed.

Example float_of_str_rejects :
  float_of_str "" = None /\ float_of_str "n/a" = None /\ float_of_str "1e" = None /\
  float_of_str "1_" = None /\ float_of_str "." = None /\ float_of_str "12 34" = None.
Proof. repeat split; reflexivity. Qed.

Example str_of_int_digits :
  str_of_int 2024 = "2024" /\ str_of_int (-10) = "-10" /\ str_of_int 0 = "0".
Proof. repeat split; reflexivity. Qed.

Example lower_and_contains :
  lower " CURRENT USD" = " current usd" /\
  contains "usd" " current usd" = true /\ contains "cad" " current usd" = false.
Proof. repeat split; reflexivity. Qed.

(** ** Cells outside the data model *)

(** A truth value is an [int] for [isinstance], so a boolean cell is drawn
    as 1.0 or 0.0. *)
Example boolean_cell_is_drawn :
  extract_numeric_values (sheet_of_rows [[VStr "Flag"]; [VBool true]; [VBool false]]) 1 0 =
  Ok [flt "1.0"; flt "0.0"].
Proof. reflexivity. Qed.

(** An integer beyond the float range makes [float] raise, and the
    extractor with it. *)
Example huge_integer_raises :
  extract_numeric_values (sheet_of_rows [[VStr "Count"]; [VInt (2 ^ 1024)]]) 1 0 =
  Raise OverflowError.
Proof. reflexivity. Qed.

(** A date or any other object is skipped. *)
Example other_cell_is_skipped :
  extract_numeric_values
    (sheet_of_rows [[VStr "When"]; [VOther true "2024-01-31 00:00:00"]; [VInt 3]]) 1 0 =
  Ok [flt "3"].
Proof. reflexivity. Qed.

(** ** The claims *)

(** C4. For every list of headers and of targets, the Column Matcher maps a
    target to column offset [i] exactly when the target is in the list and
    [i] is the first header, in order, that is not empty and whose lowercased
    form contains the lowercased target; no later header is looked at, so the
    offset is unique.  The header recorded is never empty.  A target has no
    entry exactly when it is not asked for or no header matches it.  The
    target usd matches the header " CURRENT USD". *)
Theorem C4_column_matcher (headers targets : list string) (target : string) :
  (forall i, dict_get target (find_column_matches headers targets) = Some i <->
             target ∈ targets /\ first_hit target headers i) /\
  (forall i j, first_hit target headers i -> first_hit target headers j -> i = j) /\
  (forall i, dict_get target (find_column_matches headers targets) = Some i ->
             headers !! Z.to_nat i <> Some "") /\
  (dict_get target (find_column_matches headers targets) = None <->
   target ∉ targets \/ no_hit target headers) /\
  find_column_matches [" CURRENT USD"] ["usd"] = [("usd", 0)].
Proof.
  split_and!.
  - intros i. apply dict_get_find_column_matches.
  - intros i j. apply first_hit_unique.
  - intros i Hi. apply dict_get_find_column_matches in Hi as [_ (_ & (h & Hh & Hne & _) & _)].
    rewrite Hh. congruence.
  - split.
    + intros Hnone. destruct (decide (target ∈ targets)) as [Hin|Hin]; [|by left].
      right. destruct (first_hit_or_no_hit target headers) as [[i Hi]|Hno]; [|done].
      assert (dict_get target (find_column_matches headers targets) = Some i) as Hsome
        by (by apply dict_get_find_column_matches).
      congruence.
    + intros Hor.
      destruct (dict_get target (find_column_matches headers targets)) as [i|] eqn:E; [|done].
      apply dict_get_find_column_matches in E as [Hin Hi].
      destruct Hor as [Hout|Hno]; [done|]. exfalso. by apply (first_hit_no_hit _ _ _ Hi).
  - reflexivity.
Qed.

(** C8. For every grid and every row (so for every candidate row of the
    scan window), the text-cell count the Header Locator computes is the
    number of columns in 1..maxColumn whose cell holds a text: there is a
    duplicate-free list of exactly those columns, and the count is its
    length.  A text is a cell that is neither a number nor empty. *)
Theorem C8_text_cell_count (ws : worksheet) (row : Z) :
  exists columns : list Z,
    NoDup columns /\
    (forall col, col ∈ columns <->
       1 <= col <= max_column ws /\ exists s, cell_value ws row col = VStr s) /\
    text_cells ws row = Z.of_nat (length columns).
Proof.
  exists (filter (fun col => is_str (cell_value ws row col) = true)
            (range 1 (max_column ws + 1))).
  split_and!.
  - apply NoDup_filter, NoDup_range.
  - intros col. rewrite list_elem_of_filter, range_elem. split.
    + intros [Hs Hc]. split; [lia|]. destruct (cell_value ws row col); try discriminate. eauto.
    + intros [Hc [s Hs]]. split; [by rewrite Hs | lia].
  - unfold text_cells. apply sum_of_ones.
Qed.

(** C3. For every grid the Header Locator looks at the rows of the window
    1..min(10, maxRow) and at no other: two grids with the same window and
    the same text-cell counts in it get the same row.  When some row of the
    window holds a text, the row chosen lies in the window, no row of the
    window has a greater count, and every earlier row has a strictly smaller
    one (a tie keeps the earlier row).  When no row of the window holds a
    text, row 1 is returned.  On the Scenario B grid (a title in row 1, row 2
    empty, five text headers in row 3) row 3 is chosen. *)
Theorem C3_header_locator (ws : worksheet) :
  (forall ws', Z.min 10 (max_row ws') = Z.min 10 (max_row ws) ->
     (forall row, in_window ws row -> text_cells ws' row = text_cells ws row) ->
     find_best_header_row ws' = find_best_header_row ws) /\
  ((exists row, in_window ws row /\ 0 < text_cells ws row) ->
     in_window ws (find_best_header_row ws) /\
     (forall row, in_window ws row ->
        text_cells ws row <= text_cells ws (find_best_header_row ws)) /\
     (forall row, in_window ws row -> row < find_best_header_row ws ->
        text_cells ws row < text_cells ws (find_best_header_row ws))) /\
  ((forall row, in_window ws row -> text_cells ws row = 0) ->
     find_best_header_row ws = 1) /\
  find_best_header_row scenario_B = 3.
Proof.
  split_and!.
  - intros ws' Hwin Hcount. unfold find_best_header_row.
    replace (Z.min 11 (max_row ws' + 1)) with (Z.min 11 (max_row ws + 1)) by lia.
    f_equal. apply header_loop_ext. intros row Hrow. by apply Hcount, window_range.
  - intros H. by apply find_best_header_row_best.
  - apply find_best_header_row_empty.
  - reflexivity.
Qed.

(** C10. For every grid and target list, the column names of the output
    summary are pairwise distinct: the match mapping is keyed by the target
    string, so a target asked for several times has one key, and two summary
    entries with the same name are the same entry. *)
Theorem C10_distinct_columns (ws : worksheet) (targets : list string)
    (summary : list column_summary) :
  find_columns_in_excel ws targets = Ok summary ->
  NoDup (keys (matches_of ws targets)) /\
  NoDup (map column summary) /\
  forall e1 e2, e1 ∈ summary -> e2 ∈ summary -> column e1 = column e2 -> e1 = e2.
Proof.
  intros H. apply find_columns_in_excel_inv in H as ->.
  assert (NoDup (keys (matches_of ws targets))) as Hkeys
    by apply NoDup_keys_find_column_matches.
  assert (NoDup (map column
            (flat_map (entry_of ws (header_row_of ws)) (matches_of ws targets)))) as Hnd
    by (eapply sublist_NoDup; [done | apply entries_sublist]).
  split_and!; [done | done |].
  intros e1 e2. by apply NoDup_map_elem.
Qed.

Lemma C10_distinct_columns_witness :
  find_columns_in_excel scenario_A ["price"; "quantity"] =
    Ok [ColumnSummary "price" (flt "526.5") (flt "131.62");
        ColumnSummary "quantity" (flt "38") (flt "9.5")] /\
  NoDup (map column
           [ColumnSummary "price" (flt "526.5") (flt "131.62");
            ColumnSummary "quantity" (flt "38") (flt "9.5")]).
Proof.
  split; [exact scenario_A_summary|].
  exact (proj1 (proj2 (C10_distinct_columns scenario_A ["price"; "quantity"] _
                         scenario_A_summary))).
Defined.

(** C9, as amended. For every grid and target list, the number of summary
    entries is the number of Column Matches whose column holds at least one
    numeric value, which is at most the number of Column Matches, which is at
    most the number of Target Column Names. *)
Theorem C9_cardinalities (ws : worksheet) (targets : list string)
    (summary : list column_summary) :
  find_columns_in_excel ws targets = Ok summary ->
  length summary = length (matched_with_values ws targets) /\
  (length summary <= length (matches_of ws targets))%nat /\
  (length (matches_of ws targets) <= length targets)%nat.
Proof.
  intros H. apply find_columns_in_excel_inv in H as ->.
  rewrite entries_length. split_and!.
  - reflexivity.
  - apply filter_length_le.
  - unfold matches_of, find_column_matches.
    etrans; [apply length_matches | simpl; lia].
Qed.

Lemma C9_cardinalities_witness :
  find_columns_in_excel scenario_A ["price"; "quantity"] =
    Ok [ColumnSummary "price" (flt "526.5") (flt "131.62");
        ColumnSummary "quantity" (flt "38") (flt "9.5")] /\
  (2%nat = length (matched_with_values scenario_A ["price"; "quantity"]) /\
   (2 <= length (matches_of scenario_A ["price"; "quantity"]))%nat /\
   (length (matches_of scenario_A ["price"; "quantity"]) <= 2)%nat).
Proof.
  split; [exact scenario_A_summary|].
  exact (C9_cardinalities scenario_A ["price"; "quantity"] _ scenario_A_summary).
Defined.

(** C9, as the specification words it, fails: with one target that matches
    no header there is one Target Column Name and no matched column with a
    numeric value. *)
Lemma C9_chain_counterexample :
  find_columns_in_excel scenario_A ["nonexistent_column"] = Ok [] /\
  ~ cardinality_chain scenario_A ["nonexistent_column"] [].
Proof.
  split; [reflexivity|].
  intros (_ & _ & H). vm_compute in H. lia.
Qed.

(** C7. For every grid and target list, a target that matches no header,
    or whose matched column (the first header it matches) yields no value
    on extraction, has no entry in the summary; and when every target is of
    one of these two kinds the engine returns the empty list, as a result
    and not as an error.  So it is for the target nonexistent_column on the
    Scenario A grid. *)
Theorem C7_omitted_targets (ws : worksheet) (targets : list string) :
  (forall summary target,
     find_columns_in_excel ws targets = Ok summary ->
     no_hit target (headers_in ws) \/
     (exists i, first_hit target (headers_in ws) i /\
                extract_numeric_values ws (header_row_of ws) i = Ok []) ->
     ~ appears target summary) /\
  ((forall target, target ∈ targets ->
      no_hit target (headers_in ws) \/
      (exists i, first_hit target (headers_in ws) i /\
                 extract_numeric_values ws (header_row_of ws) i = Ok [])) ->
   find_columns_in_excel ws targets = Ok []) /\
  find_columns_in_excel scenario_A ["nonexistent_column"] = Ok [].
Proof.
  split_and!.
  - intros summary target H Hkind (e & He & Hcol).
    apply find_columns_in_excel_inv in H as ->.
    apply elem_of_entries in He as ([t i] & Hitem & He).
    pose proof (entry_of_column _ _ _ _ He) as Hname. simpl in Hname.
    assert (t = target) as -> by congruence.
    apply item_find_column_matches in Hitem as [_ Hfirst].
    destruct Hkind as [Hno | (j & Hj & Hempty)].
    + by apply (first_hit_no_hit _ _ _ Hfirst).
    + assert (i = j) as -> by (by apply (first_hit_unique target (headers_in ws))).
      unfold entry_of in He. simpl in He. rewrite Hempty in He. by apply elem_of_nil in He.
  - intros Hkind. unfold find_columns_in_excel.
    fold (header_row_of ws). fold (headers_in ws). fold (matches_of ws targets).
    assert (forall item, item ∈ matches_of ws targets ->
              extract_numeric_values ws (header_row_of ws) (snd item) = Ok []) as Hall.
    { intros [t i] Hitem. apply item_find_column_matches in Hitem as [Hin Hfirst].
      destruct (Hkind t Hin) as [Hno | (j & Hj & Hempty)].
      - exfalso. by apply (first_hit_no_hit _ _ _ Hfirst).
      - assert (i = j) as -> by (by apply (first_hit_unique t (headers_in ws))). done. }
    rewrite summarise_ok by (intros item Hitem; eauto). simpl. f_equal.
    induction (matches_of ws targets) as [|item items IH]; simpl; [reflexivity|].
    rewrite IH by (intros it Hit; apply Hall; by right).
    unfold entry_of. rewrite (Hall item) by left. reflexivity.
  - reflexivity.
Qed.

(** C6. For every column summary the engine emits there is a Column Match
    of that name whose extracted value sequence is not empty, [sum] is the
    sum of that sequence rounded to two decimal places, and [avg] is the
    unrounded sum divided by the number of values, rounded to two decimal
    places.  The sum and the quotient are those of float arithmetic.  One
    rounding serves every output, and it rounds half to even. *)
Theorem C6_sum_and_average (ws : worksheet) (targets : list string)
    (summary : list column_summary) (e : column_summary) :
  find_columns_in_excel ws targets = Ok summary ->
  e ∈ summary ->
  exists (i : Z) (values : list float),
    dict_get (column e) (matches_of ws targets) = Some i /\
    extract_numeric_values ws (header_row_of ws) i = Ok values /\
    values <> [] /\
    sum e = round2 (Py.sum values) /\
    avg e = round2 (fdiv (Py.sum values) (nearest_int (Z.of_nat (length values)))) /\
    rounded_half_even (Py.sum values) (sum e) /\
    rounded_half_even (fdiv (Py.sum values) (nearest_int (Z.of_nat (length values))))
      (avg e).
Proof.
  intros H He. apply find_columns_in_excel_inv in H as ->.
  apply elem_of_entries in He as ([t i] & Hitem & He).
  unfold entry_of in He. simpl in He.
  destruct (extract_numeric_values ws (header_row_of ws) i) as [[|v vs]|err] eqn:E;
    try (by apply elem_of_nil in He).
  apply list_elem_of_singleton in He as ->. simpl.
  exists i, (v :: vs). split_and!; try done.
  - apply dict_get_NoDup; [apply NoDup_keys_find_column_matches | done].
  - apply round2_half_even.
  - apply round2_half_even.
Qed.

Lemma C6_sum_and_average_witness :
  exists (i : Z) (values : list float),
    dict_get "price" (matches_of scenario_A ["price"; "quantity"]) = Some i /\
    extract_numeric_values scenario_A (header_row_of scenario_A) i = Ok values /\
    values <> [] /\
    flt "526.5" = round2 (Py.sum values) /\
    flt "131.62" = round2 (fdiv (Py.sum values) (nearest_int (Z.of_nat (length values)))) /\
    rounded_half_even (Py.sum values) (flt "526.5") /\
    rounded_half_even (fdiv (Py.sum values) (nearest_int (Z.of_nat (length values))))
      (flt "131.62").
Proof.
  apply (C6_sum_and_average scenario_A ["price"; "quantity"] _
           (ColumnSummary "price" (flt "526.5") (flt "131.62")) scenario_A_summary).
  left.
Defined.

(** C5. For every grid of the data model (each data cell of the column a
    number within the float range, a text or empty), every header row index
    and every column offset, the Numeric Extractor returns the contributions
    of the cells of rows headerRowIndex+1..maxRow at that column, in row
    order: a number contributes its value, a text contributes its numeric
    reading once commas, the dollar sign and surrounding blanks are removed,
    a text with no such reading and an empty cell contribute nothing.  The
    text 1,200.00 contributes 1200.0, as in the Scenario E column. *)
Theorem C5_numeric_extractor (ws : worksheet) (header_row col_idx : Z) :
  forallb in_data_model (data_cells ws header_row col_idx) = true ->
  extract_numeric_values ws header_row col_idx =
    Ok (flat_map contribution (data_cells ws header_row col_idx)) /\
  contribution (VStr "1,200.00") = [flt "1200.0"] /\
  extract_numeric_values scenario_E 1 1 =
    Ok [flt "1200.0"; flt "35.5"; flt "7.0"; flt "2.25"].
Proof.
  intros Hmodel. split_and!; try reflexivity.
  rewrite forallb_forall in Hmodel.
  assert (forall row, row ∈ range (header_row + 1) (max_row ws + 1) ->
            in_data_model (cell_value ws row (col_idx + 1)) = true) as Hcells.
  { intros row Hrow. apply Hmodel. unfold data_cells.
    apply (in_map (fun r => cell_value ws r (col_idx + 1))). by apply list_elem_of_In. }
  unfold extract_numeric_values, data_cells. rewrite extract_loop_converts.
  - simpl. f_equal. clear Hmodel.
    induction (range (header_row + 1) (max_row ws + 1)) as [|r l IH]; simpl; [reflexivity|].
    rewrite IH by (intros row Hrow; apply Hcells; by right).
    f_equal. apply in_data_model_drawn, Hcells. left.
  - intros row Hrow. by apply in_data_model_drawn, Hcells.
Qed.

Lemma C5_numeric_extractor_witness :
  forallb in_data_model (data_cells scenario_E 1 1) = true /\
  extract_numeric_values scenario_E 1 1 =
    Ok (flat_map contribution (data_cells scenario_E 1 1)).
Proof.
  split; [reflexivity|].
  exact (proj1 (C5_numeric_extractor scenario_E 1 1 eq_refl)).
Defined.

(** C2, as amended. For every grid whose integer cells fit a float and every
    target list, a target whose lowercased form is contained in the
    lowercased form of some trimmed, non-empty header appears in the summary
    provided the column of the first such header holds at least one
    numeric-coercible data cell below the header row. *)
Theorem C2_first_match_appears (ws : worksheet) (targets : list string)
    (target : string) (i : Z) :
  all_cells converts ws = true ->
  target ∈ targets ->
  first_hit target (headers_in ws) i ->
  existsb coercible (data_cells ws (header_row_of ws) i) = true ->
  exists summary,
    find_columns_in_excel ws targets = Ok summary /\ appears target summary.
Proof.
  intros Hall Hin Hfirst Hcell.
  exists (flat_map (entry_of ws (header_row_of ws)) (matches_of ws targets)). split.
  - unfold find_columns_in_excel.
    fold (header_row_of ws). fold (headers_in ws). fold (matches_of ws targets).
    rewrite summarise_ok; [reflexivity|].
    intros item Hitem. eexists. by apply (extract_matched_converts ws targets).
  - assert ((target, i) ∈ matches_of ws targets) as Hitem
      by (by apply item_find_column_matches).
    pose proof (extract_matched_converts ws targets _ Hall Hitem) as Hvalues.
    simpl in Hvalues. apply flat_map_drawn_nonempty in Hcell.
    destruct (flat_map drawn (data_cells ws (header_row_of ws) i)) as [|v vs] eqn:E; [done|].
    eexists. split.
    + apply elem_of_entries. exists (target, i). split; [done|].
      unfold entry_of. simpl. rewrite Hvalues. left.
    + reflexivity.
Qed.

Lemma C2_first_match_appears_witness :
  exists summary,
    find_columns_in_excel scenario_A ["price"; "quantity"] = Ok summary /\
    appears "price" summary.
Proof.
  apply (C2_first_match_appears scenario_A ["price"; "quantity"] "price" 1).
  - reflexivity.
  - left.
  - apply first_hit_find. exists "Price". reflexivity.
  - reflexivity.
Defined.

(** C2, as the specification words it, fails: the target price is contained
    in the second header, whose column holds numbers, but it is matched to
    the first header that contains it, whose column holds none, and the
    summary is empty. *)
Lemma C2_any_match_counterexample :
  find_columns_in_excel two_price_columns ["price"] = Ok [] /\
  ~ any_match_appears two_price_columns ["price"].
Proof.
  split; [reflexivity|].
  intros H. destruct (H "price" 1 "Price") as (summary & Hsum & e & He & _).
  - left.
  - reflexivity.
  - lia.
  - exists "", "". reflexivity.
  - reflexivity.
  - assert (find_columns_in_excel two_price_columns ["price"] = Ok []) as Hnil
      by reflexivity.
    rewrite Hnil in Hsum. injection Hsum as <-. by apply elem_of_nil in He.
Qed.

(** C1, as amended. On the Scenario A grid with targets price and quantity
    the summary holds an entry for price with sum 526.5 and avg 131.62, and
    an entry for quantity with sum 38 and avg 9.5. *)
Theorem C1_scenario_A : scenario_A_outcome (flt "131.62").
Proof.
  eexists. split; [exact scenario_A_summary|]. split.
  - left.
  - right. left.
Qed.

(** C1, as the specification words it, fails: 526.5 / 4 is 131.625 exactly,
    half-way between 131.62 and 131.63, and the tie goes to the even
    hundredth. *)
Lemma C1_scenario_A_counterexample : ~ scenario_A_outcome (flt "131.63").
Proof.
  intros (summary & Hsum & Hprice & _).
  rewrite scenario_A_summary in Hsum. injection Hsum as <-.
  apply elem_of_cons in Hprice as [Heq|Hprice].
  - injection Heq as Havg. vm_compute in Havg. discriminate.
  - apply list_elem_of_singleton in Hprice. discriminate.
Qed.

(** ** Further properties: strings *)

Lemma append_assoc (a b c : string) : (a ++ b) ++ c = a ++ (b ++ c).
Proof.
  induction a as [|x a IH]; [reflexivity|].
  rewrite !append_cons, IH. reflexivity.
Qed.

Lemma append_empty_r (a : string) : a ++ "" = a.
Proof. induction a as [|x a IH]; [reflexivity | by rewrite append_cons, IH]. Qed.

Lemma lower_char_idemp (c : ascii) : lower_char (lower_char c) = lower_char c.
Proof. destruct c as [[] [] [] [] [] [] [] []]; reflexivity. Qed.

Lemma lower_idemp (s : string) : lower (lower s) = lower s.
Proof.
  induction s as [|c s IH]; simpl; [reflexivity | by rewrite lower_char_idemp, IH].
Qed.

Lemma lower_truthy (s : string) : str_truthy (lower s) = str_truthy s.
Proof. by destruct s. Qed.

Lemma remove_char_app (c : ascii) (a b : string) :
  remove_char c (a ++ b) = remove_char c a ++ remove_char c b.
Proof.
  induction a as [|x a IH]; [reflexivity|].
  rewrite append_cons. simpl. destruct (Ascii.eqb c x); [done|].
  by rewrite append_cons, IH.
Qed.

Lemma lstrip_by_nonempty sp (s : string) :
  lstrip_by sp s = "" \/ exists c r, lstrip_by sp s = String c r /\ sp c = false.
Proof.
  induction s as [|c s IH]; simpl; [by left|].
  destruct (sp c) eqn:E; [done | right; eauto].
Qed.

Lemma lstrip_by_head sp (c : ascii) (r : string) :
  sp c = false -> lstrip_by sp (String c r) = String c r.
Proof. intros H. simpl. by rewrite H. Qed.

Lemma rstrip_by_idemp sp (s : string) : rstrip_by sp (rstrip_by sp s) = rstrip_by sp s.
Proof.
  induction s as [|c s IH]; simpl; [reflexivity|].
  destruct (rstrip_by sp s) as [|d r] eqn:E.
  - destruct (sp c) eqn:Ec; simpl; [reflexivity | by rewrite Ec].
  - simpl. simpl in IH. by rewrite IH.
Qed.

Lemma rstrip_by_head sp (c : ascii) (r : string) :
  sp c = false -> exists r', rstrip_by sp (String c r) = String c r'.
Proof.
  intros H. simpl. destruct (rstrip_by sp r); [rewrite H|]; eauto.
Qed.

Lemma strip_idemp (s : string) : strip (strip s) = strip s.
Proof.
  unfold strip.
  destruct (lstrip_by_nonempty is_space s) as [-> | (c & r & -> & Hc)]; [reflexivity|].
  destruct (rstrip_by_head is_space c r Hc) as [r' Hr]. rewrite Hr.
  rewrite lstrip_by_head by done. rewrite <- Hr. apply rstrip_by_idemp.
Qed.

Lemma lstrip_by_app sp (p s : string) :
  all_chars sp p = true -> lstrip_by sp (p ++ s) = lstrip_by sp s.
Proof.
  unfold all_chars.
  induction p as [|c p IH]; [done|].
  rewrite append_cons. simpl. rewrite andb_true_iff. intros [Hc Hp]. rewrite Hc. auto.
Qed.

Lemma lstrip_by_empty sp (s : string) : lstrip_by sp s = "" -> all_chars sp s = true.
Proof.
  unfold all_chars.
  induction s as [|c s IH]; simpl; [done|].
  destruct (sp c); [auto | discriminate].
Qed.

Lemma lstrip_by_blank sp (p : string) : all_chars sp p = true -> lstrip_by sp p = "".
Proof.
  unfold all_chars.
  intros Hp. rewrite <- (append_empty_r p). by rewrite lstrip_by_app.
Qed.

Lemma blanks_app sp (p q : string) : all_chars sp p = true -> all_chars sp q = true -> all_chars sp (p ++ q) = true.
Proof.
  unfold all_chars.
  intros Hp Hq. induction p as [|c p IH]; [done|].
  rewrite append_cons. simpl in *. apply andb_true_iff in Hp as [Hc Hp].
  rewrite Hc. simpl. auto.
Qed.

Lemma lstrip_by_app_r sp (s q : string) :
  lstrip_by sp s <> "" -> lstrip_by sp (s ++ q) = lstrip_by sp s ++ q.
Proof.
  unfold all_chars.
  induction s as [|c s IH]; [done|].
  rewrite append_cons. simpl. destruct (sp c); [auto|]. intros _. by rewrite append_cons.
Qed.

Lemma rstrip_by_blank sp (q : string) : all_chars sp q = true -> rstrip_by sp q = "".
Proof.
  unfold all_chars.
  induction q as [|c q IH]; simpl; [done|].
  rewrite andb_true_iff. intros [Hc Hq]. by rewrite IH, Hc.
Qed.

Lemma rstrip_by_app sp (s q : string) :
  all_chars sp q = true -> rstrip_by sp (s ++ q) = rstrip_by sp s.
Proof.
  unfold all_chars.
  intros Hq. induction s as [|c s IH].
  - rewrite append_empty. by apply rstrip_by_blank.
  - rewrite append_cons. simpl. by rewrite IH.
Qed.

Lemma strip_padding (p s q : string) :
  all_chars is_space p = true -> all_chars is_space q = true -> strip (p ++ s ++ q) = strip s.
Proof.
  unfold all_chars.
  intros Hp Hq. unfold strip. rewrite lstrip_by_app by done.
  destruct (lstrip_by is_space s) as [|c r] eqn:E.
  - apply lstrip_by_empty in E.
    by rewrite lstrip_by_blank by (by apply blanks_app).
  - rewrite lstrip_by_app_r by (by rewrite E). rewrite E. by apply rstrip_by_app.
Qed.

Lemma remove_char_blank (c : ascii) (p : string) :
  is_space c = false -> all_chars is_space p = true -> remove_char c p = p.
Proof.
  unfold all_chars.
  intros Hc. induction p as [|x p IH]; simpl; [done|].
  rewrite andb_true_iff. intros [Hx Hp].
  destruct (Ascii.eqb_spec c x) as [->|_]; [congruence | by rewrite IH].
Qed.

Lemma cleaned_separator (c : ascii) (a b : string) :
  c = ","%char \/ c = "$"%char -> cleaned (a ++ String c b) = cleaned (a ++ b).
Proof.
  unfold all_chars.
  intros Hc. unfold cleaned. f_equal.
  rewrite !remove_char_app. destruct Hc as [-> | ->]; reflexivity.
Qed.

Lemma cleaned_padding (p s q : string) :
  all_chars is_space p = true -> all_chars is_space q = true -> cleaned (p ++ s ++ q) = cleaned s.
Proof.
  unfold all_chars.
  intros Hp Hq. unfold cleaned. rewrite !remove_char_app.
  rewrite !(remove_char_blank _ p), !(remove_char_blank _ q) by done.
  by apply strip_padding.
Qed.

Lemma endswith_spec (s suffix : string) :
  Serializer.endswith s suffix = true <-> exists stem, s = stem ++ suffix.
Proof.
  induction s as [|c s IH]; cbn [Serializer.endswith].
  - rewrite orb_false_r, String.eqb_eq. split.
    + intros <-. by exists "".
    + intros [[|d stem] H]; [done | discriminate].
  - rewrite orb_true_iff, String.eqb_eq, IH. split.
    + intros [<- | [stem ->]]; [by exists "" | by exists (String c stem)].
    + intros [[|d stem] H].
      * left. by rewrite append_empty in H.
      * right. exists stem. rewrite append_cons in H. congruence.
Qed.

(** ** Further properties: the Header Locator and the Column Matcher *)

(** The row returned is never below 1 nor above row 10 or the last row, and
    unless it is row 1 it holds a text. *)
Theorem find_best_header_row_bounds (ws : worksheet) :
  1 <= find_best_header_row ws <= Z.max 1 (Z.min 10 (max_row ws)) /\
  (find_best_header_row ws = 1 \/ 0 < text_cells ws (find_best_header_row ws)).
Proof.
  unfold find_best_header_row.
  destruct (header_loop_spec ws (range 1 (Z.min 11 (max_row ws + 1))) 1 0)
    as (_ & _ & [-> | (before & after & Hrows & Hc & Hlt & _)]).
  - simpl. split; [lia | by left].
  - apply range_split in Hrows as [Hin _]. split; [lia|]. right. lia.
Qed.

Lemma existsb_find {A} (f : A -> bool) (l : list A) :
  existsb f l = match find f l with Some _ => true | None => false end.
Proof. induction l as [|x l IH]; simpl; [done|]. by destruct (f x). Qed.

Lemma keys_matches_sublist headers targets (start : dict) :
  exists l,
    keys (fold_left (fun matches t => match_target t (enumerate 0 headers) matches)
            targets start) = (keys start ++ l)%list /\
    l `sublist_of` targets.
Proof.
  revert start. induction targets as [|t ts IH]; intros start; simpl.
  - exists []. by rewrite app_nil_r.
  - destruct (IH (match_target t (enumerate 0 headers) start)) as (l & -> & Hl).
    rewrite match_target_find. destruct (find (hits t) _) as [[i h]|].
    + rewrite keys_dict_set. case_bool_decide.
      * exists l. split; [done | by apply sublist_cons].
      * exists (t :: l). split; [by rewrite <- app_assoc | by apply sublist_skip].
    + exists l. split; [done | by apply sublist_cons].
Qed.

Lemma keys_matches_filter headers targets (start : dict) :
  NoDup targets -> (forall t, t ∈ targets -> t ∉ keys start) ->
  keys (fold_left (fun matches t => match_target t (enumerate 0 headers) matches)
          targets start) = (keys start ++ List.filter (matched headers) targets)%list.
Proof.
  revert start. induction targets as [|t ts IH]; intros start Hnd Hfresh; simpl.
  - by rewrite app_nil_r.
  - apply NoDup_cons in Hnd as [Ht Hnd].
    unfold matched at 1. rewrite existsb_find, match_target_find.
    destruct (find (hits t) _) as [[i h]|].
    + rewrite IH; [|done|].
      * rewrite keys_dict_set, bool_decide_eq_false_2 by (apply Hfresh; left).
        by rewrite <- app_assoc.
      * intros t' Ht'. rewrite keys_dict_set, bool_decide_eq_false_2 by (apply Hfresh; left).
        rewrite elem_of_app, list_elem_of_singleton. intros [Hin | ->]; [|done].
        by apply (Hfresh t'); [right|].
    + apply IH; [done|]. intros t' Ht'. apply Hfresh. by right.
Qed.

(** The keys of the mapping come in the order of the target list; when no
    target is repeated they are exactly the targets some header matches. *)
Theorem matches_follow_targets (headers targets : list string) :
  keys (find_column_matches headers targets) `sublist_of` targets /\
  (NoDup targets ->
   keys (find_column_matches headers targets) = List.filter (matched headers) targets).
Proof.
  split.
  - destruct (keys_matches_sublist headers targets []) as (l & Hl & Hsub).
    unfold find_column_matches. by rewrite Hl.
  - intros Hnd. unfold find_column_matches. rewrite keys_matches_filter; [done | done |].
    intros t _. apply not_elem_of_nil.
Qed.

(** The summary lists its columns in the order the targets were given. *)
Theorem summary_follows_targets (ws : worksheet) (targets : list string)
    (summary : list column_summary) :
  find_columns_in_excel ws targets = Ok summary ->
  map column summary `sublist_of` targets.
Proof.
  intros H. apply find_columns_in_excel_inv in H as ->.
  etrans; [apply entries_sublist|]. apply matches_follow_targets.
Qed.

Lemma summary_follows_targets_witness :
  map column
    [ColumnSummary "price" (flt "526.5") (flt "131.62");
     ColumnSummary "quantity" (flt "38") (flt "9.5")]
  `sublist_of` ["price"; "quantity"].
Proof.
  exact (summary_follows_targets scenario_A ["price"; "quantity"] _ scenario_A_summary).
Defined.

Lemma scenario_B_usd_summary :
  find_columns_in_excel scenario_B ["usd"; "current usd"] =
  Ok [ColumnSummary "usd" (flt "1661.25") (flt "415.31");
      ColumnSummary "current usd" (flt "1661.25") (flt "415.31")].
Proof. vm_compute. reflexivity. Qed.

(** Two targets resolved to the same column get the same sum and the same
    average. *)
Theorem same_column_same_aggregates (ws : worksheet) (targets : list string)
    (summary : list column_summary) (e1 e2 : column_summary) (i : Z) :
  find_columns_in_excel ws targets = Ok summary ->
  e1 ∈ summary -> e2 ∈ summary ->
  dict_get (column e1) (matches_of ws targets) = Some i ->
  dict_get (column e2) (matches_of ws targets) = Some i ->
  sum e1 = sum e2 /\ avg e1 = avg e2.
Proof.
  intros H He1 He2 Hi1 Hi2. apply find_columns_in_excel_inv in H as ->.
  assert (forall e, e ∈ flat_map (entry_of ws (header_row_of ws)) (matches_of ws targets) ->
            dict_get (column e) (matches_of ws targets) = Some i ->
            e ∈ entry_of ws (header_row_of ws) (column e, i)) as Hentry.
  { intros e He Hi. apply elem_of_entries in He as ([t j] & Hitem & He).
    pose proof (entry_of_column _ _ _ _ He) as Hname. simpl in Hname. subst t.
    apply dict_get_NoDup in Hitem; [|apply NoDup_keys_find_column_matches].
    assert (j = i) as -> by congruence. done. }
  pose proof (Hentry e1 He1 Hi1) as H1. pose proof (Hentry e2 He2 Hi2) as H2.
  unfold entry_of in H1, H2. simpl in H1, H2.
  destruct (extract_numeric_values ws (header_row_of ws) i) as [[|v vs]|err];
    try (by apply elem_of_nil in H1).
  apply list_elem_of_singleton in H1, H2. rewrite H1, H2. done.
Qed.

Lemma same_column_same_aggregates_witness :
  flt "1661.25" = flt "1661.25" /\ flt "415.31" = flt "415.31".
Proof.
  apply (same_column_same_aggregates scenario_B ["usd"; "current usd"] _
           (ColumnSummary "usd" (flt "1661.25") (flt "415.31"))
           (ColumnSummary "current usd" (flt "1661.25") (flt "415.31")) 2
           scenario_B_usd_summary).
  - left.
  - right. left.
  - reflexivity.
  - reflexivity.
Defined.

Lemma hits_lower target target' ih :
  lower target = lower target' -> hits target ih = hits target' ih.
Proof. unfold hits. by intros ->. Qed.

Lemma find_hits_lower target target' hs :
  lower target = lower target' -> find (hits target) hs = find (hits target') hs.
Proof.
  intros H. induction hs as [|ih hs IH]; simpl; [done|].
  by rewrite (hits_lower _ _ _ H), IH.
Qed.

(** A target is resolved by its lowercased form alone: two spellings that
    differ only in letter case get the same column, in whatever target lists
    they stand. *)
Theorem matching_ignores_target_case (headers targets1 targets2 : list string)
    (target1 target2 : string) :
  lower target1 = lower target2 ->
  target1 ∈ targets1 -> target2 ∈ targets2 ->
  dict_get target1 (find_column_matches headers targets1) =
  dict_get target2 (find_column_matches headers targets2).
Proof.
  intros Hlow H1 H2. unfold find_column_matches. rewrite !dict_get_matches.
  rewrite !bool_decide_eq_true_2 by done.
  by rewrite (find_hits_lower _ _ _ Hlow).
Qed.

Lemma matching_ignores_target_case_witness :
  dict_get "USD" (find_column_matches ["ID"; " CURRENT USD"] ["USD"]) =
  dict_get "usd" (find_column_matches ["ID"; " CURRENT USD"] ["cad"; "usd"]).
Proof.
  apply matching_ignores_target_case; [reflexivity | left | right; left].
Defined.

Lemma match_target_lower_headers target headers k matches :
  match_target target (enumerate k (map lower headers)) matches =
  match_target target (enumerate k headers) matches.
Proof.
  revert k. induction headers as [|h hs IH]; intros k; simpl; [done|].
  by rewrite lower_idemp, lower_truthy, IH.
Qed.

(** Lowercasing the headers beforehand changes no match. *)
Theorem matching_ignores_header_case (headers targets : list string) :
  find_column_matches (map lower headers) targets = find_column_matches headers targets.
Proof.
  unfold find_column_matches. generalize (@nil (string * Z)).
  induction targets as [|t ts IH]; intros start; simpl; [done|].
  by rewrite match_target_lower_headers, IH.
Qed.

Lemma hit_empty_target (header : string) : hit "" header <-> header <> "".
Proof.
  unfold hit. split; [tauto|]. intros H. split; [done|].
  exists "", (lower header). reflexivity.
Qed.

(** The empty target is matched to the first header that is not empty. *)
Theorem empty_target_first_header (headers targets : list string) (i : Z) :
  dict_get "" (find_column_matches headers targets) = Some i <->
  "" ∈ targets /\ 0 <= i /\
  (exists h, headers !! Z.to_nat i = Some h /\ h <> "") /\
  (forall j h, 0 <= j < i -> headers !! Z.to_nat j = Some h -> h = "").
Proof.
  rewrite dict_get_find_column_matches. unfold first_hit.
  setoid_rewrite hit_empty_target. split.
  - intros (Hin & Hi & Hh & Hfirst). split_and!; try done.
    intros j h Hj Hl. destruct (decide (h = "")) as [|Hne]; [done|].
    exfalso. by apply (Hfirst j h).
  - intros (Hin & Hi & Hh & Hfirst). split_and!; try done.
    intros j h Hj Hl Hne. apply Hne. by apply (Hfirst j h).
Qed.

(** When the lowercased form of one target is contained in that of another,
    every header the longer one matches is matched by the shorter one too, so
    the shorter one is resolved, and to a column that comes no later. *)
Theorem shorter_target_matches_no_later (headers targets : list string)
    (short long : string) (i : Z) :
  contains (lower short) (lower long) = true ->
  short ∈ targets ->
  dict_get long (find_column_matches headers targets) = Some i ->
  exists j, dict_get short (find_column_matches headers targets) = Some j /\ j <= i.
Proof.
  intros Hsub Hin Hlong.
  apply dict_get_find_column_matches in Hlong as [_ (Hi & (h & Hl & Hne & pre & post & Hh) & _)].
  apply contains_spec in Hsub as (a & b & Hab).
  assert (hit short h) as Hhit.
  { split; [done|]. exists (pre ++ a), (b ++ post).
    rewrite Hh, Hab, !append_assoc. reflexivity. }
  destruct (first_hit_or_no_hit short headers) as [[j Hj]|Hno].
  - exists j. split; [by apply dict_get_find_column_matches|].
    destruct (decide (j <= i)) as [|Hgt]; [done|]. exfalso.
    destruct Hj as (_ & _ & Hfirst). apply (Hfirst i h); [lia | done | done].
  - exfalso. apply (Hno h); [|done]. by apply list_elem_of_lookup_2 in Hl.
Qed.

Lemma shorter_target_matches_no_later_witness :
  exists j,
    dict_get "usd"
      (find_column_matches ["ID"; "PRICE IN USD"; " CURRENT USD"] ["current usd"; "usd"])
    = Some j /\ j <= 2.
Proof.
  apply (shorter_target_matches_no_later _ _ "usd" "current usd" 2);
    [reflexivity | right; left | reflexivity].
Defined.




(** There is one header string per column of the sheet, and none carries
    surrounding blanks. *)
Theorem headers_are_trimmed (ws : worksheet) :
  length (headers_in ws) = Z.to_nat (max_column ws) /\
  forall h, h ∈ headers_in ws -> strip h = h.
Proof.
  split; [apply length_headers_of|].
  intros h Hh. unfold headers_in, headers_of in Hh.
  apply list_elem_of_fmap in Hh as (c & -> & _). apply strip_idemp.
Qed.

(** ** Further properties: the Numeric Extractor and the Aggregator *)

Lemma extract_step_raise v values :
  (exists e, extract_step v values = Raise e) <-> overflows v.
Proof.
  unfold overflows. destruct v as [|[]|z|f text|s|t text];
    try (split; [intros [e H]; discriminate | intros (z & H & _); discriminate]).
  - unfold extract_step. simpl. destruct (float_of_int z) as [f|[]] eqn:E; simpl.
    + split; [intros [e H]; discriminate | intros (z' & [= <-] & H); congruence].
    + split; [intros _; by exists z | intros _; by exists OverflowError].
  - unfold extract_step. simpl. destruct (float_of_str _);
      (split; [intros [e H]; discriminate | intros (z & H & _); discriminate]).
Qed.

Lemma extract_step_length v values values' :
  extract_step v values = Ok values' ->
  (length values <= length values' <= S (length values))%nat.
Proof.
  unfold extract_step. destruct (as_number v) as [[f|e]|]; simpl.
  - intros [= <-]. rewrite length_app. simpl. lia.
  - discriminate.
  - destruct v; try (intros [= <-]; lia).
    destruct (float_of_str _); intros [= <-]; rewrite ?length_app; simpl; lia.
Qed.

Lemma extract_loop_raise ws col_idx rows values :
  (exists e, extract_loop ws col_idx rows values = Raise e) <->
  exists row, row ∈ rows /\ overflows (cell_value ws row (col_idx + 1)).
Proof.
  revert values. induction rows as [|r rows IH]; intros values; simpl.
  - split; [intros [e H]; discriminate | intros (row & H & _); by apply elem_of_nil in H].
  - destruct (extract_step (cell_value ws r (col_idx + 1)) values) as [values'|e] eqn:E; simpl.
    + rewrite IH. split.
      * intros (row & Hrow & Hov). exists row. split; [by right | done].
      * intros (row & Hrow & Hov). apply elem_of_cons in Hrow as [->|Hrow]; [|eauto].
        apply (extract_step_raise _ values) in Hov as [e He]. congruence.
    + split; [|intros _; by exists e].
      intros _. exists r. split; [left|]. apply (extract_step_raise _ values). eauto.
Qed.

Lemma extract_loop_length ws col_idx rows values values' :
  extract_loop ws col_idx rows values = Ok values' ->
  (length values <= length values' <= length values + length rows)%nat.
Proof.
  revert values. induction rows as [|r rows IH]; intros values; simpl.
  - intros [= <-]. lia.
  - destruct (extract_step (cell_value ws r (col_idx + 1)) values) as [v1|e] eqn:E; simpl;
      [|discriminate].
    intros H. apply IH in H. apply extract_step_length in E. lia.
Qed.

Lemma summarise_raise ws header_row items acc :
  (exists e, summarise ws header_row items acc = Raise e) <->
  exists item, item ∈ items /\
    exists e, extract_numeric_values ws header_row (snd item) = Raise e.
Proof.
  revert acc. induction items as [|[name idx] items IH]; intros acc; simpl.
  - split; [intros [e H]; discriminate | intros (item & H & _); by apply elem_of_nil in H].
  - destruct (extract_numeric_values ws header_row idx) as [values|e] eqn:E; simpl.
    + assert ((exists item, item ∈ (name, idx) :: items /\
                 exists e, extract_numeric_values ws header_row (snd item) = Raise e) <->
              (exists item, item ∈ items /\
                 exists e, extract_numeric_values ws header_row (snd item) = Raise e)) as ->.
      { split; intros (item & Hitem & e & He).
        - apply elem_of_cons in Hitem as [->|Hitem]; [simpl in He; congruence | eauto].
        - exists item. split; [by right | eauto]. }
      destruct values; apply IH.
    + split; [|intros _; by exists e].
      intros _. exists (name, idx). split; [left | by exists e].
Qed.

(** The engine fails exactly when a matched column holds, below the header
    row, an integer that does not fit a float; in every other case it
    returns a summary. *)
Theorem engine_failure (ws : worksheet) (targets : list string) :
  (exists e, find_columns_in_excel ws targets = Raise e) <->
  exists target i row,
    dict_get target (matches_of ws targets) = Some i /\
    header_row_of ws < row <= max_row ws /\
    overflows (cell_value ws row (i + 1)).
Proof.
  unfold find_columns_in_excel.
  fold (header_row_of ws). fold (headers_in ws). fold (matches_of ws targets).
  rewrite summarise_raise. unfold extract_numeric_values.
  setoid_rewrite extract_loop_raise. setoid_rewrite range_elem. split.
  - intros ([t i] & Hitem & row & Hrow & Hov). exists t, i, row. split_and!; [|lia|lia|done].
    apply dict_get_NoDup; [apply NoDup_keys_find_column_matches | done].
  - intros (t & i & row & Hget & Hrow & Hov). exists (t, i).
    split; [by apply dict_get_Some|]. exists row. split; [lia | done].
Qed.

(** The extractor returns at most one value per data row, and nothing when
    the header row is the last row or beyond it. *)
Theorem extract_numeric_values_bounds (ws : worksheet) (header_row col_idx : Z) :
  (max_row ws <= header_row -> extract_numeric_values ws header_row col_idx = Ok []) /\
  (forall values, extract_numeric_values ws header_row col_idx = Ok values ->
     Z.of_nat (length values) <= Z.max 0 (max_row ws - header_row)).
Proof.
  unfold extract_numeric_values, range. split.
  - intros H. replace (max_row ws + 1 - (header_row + 1)) with (max_row ws - header_row) by lia.
    destruct (max_row ws - header_row) eqn:E; try lia; reflexivity.
  - intros values H. apply extract_loop_length in H. rewrite length_seqZ in H.
    simpl in H. lia.
Qed.

(** In a text cell commas and dollar signs are skipped wherever they
    stand. *)
Theorem separators_are_skipped (a b : string) (values : list float) :
  extract_step (VStr (a ++ "," ++ b)) values = extract_step (VStr (a ++ b)) values /\
  extract_step (VStr (a ++ "$" ++ b)) values = extract_step (VStr (a ++ b)) values /\
  extract_step (VStr "1,2,3") [] = Ok [flt "123"] /\
  extract_step (VStr "12$34") [] = Ok [flt "1234"].
Proof.
  assert (forall c, c = ","%char \/ c = "$"%char ->
            extract_step (VStr (a ++ String c b)) values =
            extract_step (VStr (a ++ b)) values) as H.
  { intros c Hc. unfold extract_step. simpl.
    fold (cleaned (a ++ String c b)). fold (cleaned (a ++ b)).
    by rewrite (cleaned_separator c a b Hc). }
  split_and!; [apply H; by left | apply H; by right | reflexivity | reflexivity].
Qed.

(** Blanks around the text of a cell do not change what is drawn from
    it. *)
Theorem padding_is_skipped (p s q : string) (values : list float) :
  all_chars is_space p = true -> all_chars is_space q = true ->
  extract_step (VStr (p ++ s ++ q)) values = extract_step (VStr s) values.
Proof.
  intros Hp Hq. unfold extract_step. simpl.
  fold (cleaned (p ++ s ++ q)). fold (cleaned s).
  by rewrite (cleaned_padding p s q Hp Hq).
Qed.

Lemma padding_is_skipped_witness :
  extract_step (VStr ("  " ++ "42.5" ++ " ")) [] = extract_step (VStr "42.5") [].
Proof.
  apply (padding_is_skipped "  " "42.5" " " []); reflexivity.
Defined.

(** ** Further properties: request validation *)

Import Serializer.

Lemma columns_pass_spec (value : list value) :
  columns_pass value = true <->
  Forall (fun v => exists s, v = VStr s /\ strip s <> "") value.
Proof.
  induction value as [|v value IH]; simpl.
  - split; [constructor | done].
  - rewrite Forall_cons. destruct v as [| | | |s|];
      try (split; [discriminate | intros [(s & H & _) _]; discriminate]).
    destruct (strip s) eqn:E; simpl.
    + split; [discriminate | intros [(s' & [= <-] & H) _]; congruence].
    + rewrite IH. split; [|tauto]. intros H. split; [|done].
      exists s. split; [done | congruence].
Qed.

Lemma stripped_columns_cons (s : string) (value : list value) :
  stripped_columns (VStr s :: value) = strip s :: stripped_columns value.
Proof. reflexivity. Qed.

Lemma stripped_columns_pass (value : list value) :
  columns_pass value = true ->
  length (stripped_columns value) = length value /\
  forall c, c ∈ stripped_columns value -> c <> "" /\ strip c = c.
Proof.
  induction value as [|v value IH].
  - intros _. split; [done | intros c H; by apply elem_of_nil in H].
  - destruct v as [| | | |s|]; try discriminate.
    cbn [columns_pass]. destruct (str_truthy (strip s)) eqn:E; [|discriminate].
    intros H. destruct (IH H) as [Hlen Hall]. rewrite stripped_columns_cons.
    split; [simpl; by rewrite Hlen|].
    intros c Hc. apply elem_of_cons in Hc as [->|Hc]; [|auto].
    split; [by apply str_truthy_spec | apply strip_idemp].
Qed.

Lemma validate_columns_fixed (cols : list string) :
  cols <> [] -> (forall c, c ∈ cols -> c <> "" /\ strip c = c) ->
  validate_columns (map VStr cols) = Valid cols.
Proof.
  intros Hne Hall.
  assert (columns_pass (map VStr cols) = true /\ stripped_columns (map VStr cols) = cols)
    as [Hpass Hstrip].
  { clear Hne. induction cols as [|c cols IH]; [done|].
    destruct (Hall c) as [Hc Hs]; [left|].
    cbn [map columns_pass]. rewrite stripped_columns_cons, Hs.
    apply str_truthy_spec in Hc. rewrite Hc.
    destruct IH as [-> ->]; [intros c' Hc'; apply Hall; by right | done]. }
  unfold validate_columns. rewrite Hpass, Hstrip. by destruct cols.
Qed.

(** The names [validate_columns] hands on are as many as were sent, none is
    empty, none carries surrounding blanks, and validating them again
    returns them unchanged. *)
Theorem validate_columns_valid (value : list value) (cols : list string) :
  validate_columns value = Valid cols ->
  cols <> [] /\
  length cols = length value /\
  (forall c, c ∈ cols -> c <> "" /\ strip c = c) /\
  validate_columns (map VStr cols) = Valid cols.
Proof.
  unfold validate_columns. destruct value as [|v value]; [discriminate|].
  destruct (columns_pass (v :: value)) eqn:E; [|discriminate]. intros [= <-].
  destruct (stripped_columns_pass _ E) as [Hlen Hall].
  assert (stripped_columns (v :: value) <> []) as Hne.
  { intros Hnil. rewrite Hnil in Hlen. discriminate. }
  split_and!; try done. by apply validate_columns_fixed.
Qed.

Lemma validate_columns_valid_witness :
  ["price"; "usd"] <> [] /\
  length ["price"; "usd"] = length [VStr " price "; VStr "usd"] /\
  (forall c, c ∈ ["price"; "usd"] -> c <> "" /\ strip c = c) /\
  validate_columns (map VStr ["price"; "usd"]) = Valid ["price"; "usd"].
Proof.
  apply (validate_columns_valid [VStr " price "; VStr "usd"]). reflexivity.
Defined.

(** [validate_columns] accepts a list exactly when it is not empty and each
    item is a string with something besides blanks in it. *)
Theorem validate_columns_accepts (value : list value) :
  (exists cols, validate_columns value = Valid cols) <->
  value <> [] /\ Forall (fun v => exists s, v = VStr s /\ strip s <> "") value.
Proof.
  rewrite <- columns_pass_spec. unfold validate_columns.
  destruct value as [|v value].
  - split; [intros [cols H]; discriminate | intros [H _]; done].
  - destruct (columns_pass (v :: value)).
    + split; [done | eauto].
    + split; [intros [cols H]; discriminate | intros [_ H]; discriminate].
Qed.

(** [validate_file] accepts a name exactly when its lowercased form ends in
    .xlsx or in .xls, whatever the case of the letters, and hands the file
    back as it is. *)
Theorem validate_file_accepts (name : string) :
  ((exists file, validate_file name = Valid file) <->
   exists stem, lower name = stem ++ ".xlsx" \/ lower name = stem ++ ".xls") /\
  (forall file, validate_file name = Valid file -> file = name) /\
  validate_file "Report.XLSX" = Valid "Report.XLSX" /\
  validate_file ".xls" = Valid ".xls" /\
  validate_file "prices.xlsx.txt" =
    ValidationError "File must be an Excel file (.xlsx or .xls)".
Proof.
  split_and!; try reflexivity.
  - unfold validate_file. simpl. rewrite orb_false_r.
    destruct (endswith (lower name) ".xlsx") eqn:E1; simpl.
    + apply endswith_spec in E1 as [stem H]. split; [eauto | eauto].
    + destruct (endswith (lower name) ".xls") eqn:E2.
      * apply endswith_spec in E2 as [stem H]. split; eauto.
      * split; [intros [file H]; discriminate|].
        intros [stem [H | H]].
        -- assert (endswith (lower name) ".xlsx" = true) by (apply endswith_spec; eauto).
           congruence.
        -- assert (endswith (lower name) ".xls" = true) by (apply endswith_spec; eauto).
           congruence.
  - unfold validate_file. destruct (existsb _ _); [by intros file [= <-] | discriminate].
Qed.

(** ** Further properties: sheet choice and the uploaded file *)

Lemma getitem_missing (wb : workbook) (name : string) :
  (forall s, s ∈ worksheets wb -> fst s <> name) -> getitem wb name = None.
Proof.
  unfold getitem. induction (worksheets wb) as [|[title sheet] l IH]; simpl; [done|].
  intros H. destruct (String.eqb_spec title name) as [->|_].
  - exfalso. by apply (H (name, sheet)); [left|].
  - apply IH. intros s Hs. apply H. by right.
Qed.

Lemma getitem_unique (wb : workbook) (title : string) (sheet : worksheet) :
  NoDup (map fst (worksheets wb)) -> (title, sheet) ∈ worksheets wb ->
  getitem wb title = Some sheet.
Proof.
  unfold getitem. induction (worksheets wb) as [|[t s] l IH]; simpl; intros Hnd Hin.
  - by apply elem_of_nil in Hin.
  - apply NoDup_cons in Hnd as [Ht Hnd].
    apply elem_of_cons in Hin as [[= -> ->]|Hin].
    + by rewrite String.eqb_refl.
    + destruct (String.eqb_spec t title) as [->|_]; [|auto].
      exfalso. apply Ht. apply (list_elem_of_fmap_2 fst _ _ Hin).
Qed.

(** Asking for a sheet the workbook does not have ends the request with
    [KeyError]: no summary is returned, whatever the targets. *)
Theorem missing_sheet_fails (wb : workbook) (targets : list string) (name : string) :
  name <> "" ->
  (forall s, s ∈ worksheets wb -> fst s <> name) ->
  find_columns_in_workbook wb targets (Some name) = inl (KeyError name).
Proof.
  intros Hne Hmissing. unfold find_columns_in_workbook, select_sheet.
  apply str_truthy_spec in Hne. by rewrite Hne, getitem_missing.
Qed.

Lemma missing_sheet_fails_witness :
  find_columns_in_workbook two_sheets ["price"] (Some "Costs") = inl (KeyError "Costs").
Proof.
  apply missing_sheet_fails; [discriminate|].
  intros s Hs. repeat (apply elem_of_cons in Hs as [->|Hs]; [discriminate|]).
  by apply elem_of_nil in Hs.
Defined.

(** With distinct titles, naming a sheet gives what the engine returns on
    that sheet, a summary or its failure; an empty name stands for the
    active sheet, like no name at all. *)
Theorem named_sheet_is_analysed (wb : workbook) (targets : list string)
    (title : string) (sheet : worksheet) :
  title <> "" ->
  NoDup (map fst (worksheets wb)) ->
  (title, sheet) ∈ worksheets wb ->
  find_columns_in_workbook wb targets (Some title) =
    match find_columns_in_excel sheet targets with
    | Ok summary => inr summary
    | Raise e => inl (EngineError e)
    end /\
  find_columns_in_workbook wb targets (Some "") =
    find_columns_in_workbook wb targets None.
Proof.
  intros Hne Hnd Hin. split; [|reflexivity].
  unfold find_columns_in_workbook, select_sheet.
  apply str_truthy_spec in Hne. by rewrite Hne, (getitem_unique wb title sheet).
Qed.

Lemma named_sheet_is_analysed_witness :
  find_columns_in_workbook two_sheets ["usd"; "current usd"] (Some "Prices") =
    inr [ColumnSummary "usd" (flt "1661.25") (flt "415.31");
         ColumnSummary "current usd" (flt "1661.25") (flt "415.31")].
Proof.
  destruct (named_sheet_is_analysed two_sheets ["usd"; "current usd"] "Prices" scenario_B)
    as [H _].
  - discriminate.
  - simpl. repeat constructor; rewrite ?elem_of_cons, ?elem_of_nil; intros H;
      repeat destruct H as [H|H]; try discriminate; done.
  - left.
  - rewrite scenario_B_usd_summary in H. exact H.
Defined.

(** When the temporary path is new, [process_excel_file] leaves the files
    on disk as they were, whether the analysis returns a summary or fails,
    and its outcome is that of analysing the concatenated chunks. *)
Theorem process_excel_file_cleans_up
    (load_workbook : string -> option workbook) (mktemp : gmap string string -> string)
    (fs : gmap string string) (chunks columns : list string) (sheet_name : option string) :
  fs !! mktemp fs = None ->
  process_excel_file load_workbook mktemp fs chunks columns sheet_name =
  (fs, match load_workbook (foldr String.append "" chunks) with
       | Some wb => find_columns_in_workbook wb columns sheet_name
       | None => inl LoadError
       end).
Proof.
  intros Hfresh. unfold process_excel_file. rewrite lookup_insert_eq. simpl.
  by rewrite delete_insert_id.
Qed.

Lemma process_excel_file_cleans_up_witness :
  process_excel_file (fun _ => Some two_sheets) (fun _ => "/tmp/tmpa1.xlsx")
    ∅ ["PK"; "..."] ["price"] (Some "Costs") =
  (∅, inl (KeyError "Costs")).
Proof.
  rewrite (process_excel_file_cleans_up (fun _ => Some two_sheets)
             (fun _ => "/tmp/tmpa1.xlsx") ∅ ["PK"; "..."] ["price"] (Some "Costs"))
    by reflexivity.
  reflexivity.
Defined.
